(** * AI Calendar: the event normaliser and the event store

    A shallow embedding of the two server routes of the application and of
    the client form that feeds them:

    - [app/api/openai/route.ts]: [OpenAI.POST], the handler that turns a
      natural-language request and an event type into an enhanced event and
      forwards it to the store;
    - [app/api/events/route.ts]: [Events.GET] and [Events.POST], the
      in-memory store [EVENTS];
    - [components/AI_Input.tsx]: [handleSubmit], the form submission handler.

    JavaScript objects are finite maps from property names to values, the
    store is a list, and a handler is a computation that threads the state of
    the server and may throw.  The services of the runtime that the handlers
    call ([JSON.parse], [new Date], [String.prototype.trim],
    [Date.prototype.toJSON]) are the operations of the class [Platform]; the
    properties are proved for every platform, and [reference_platform]
    gives one on which the handlers can be run. *)

From Stdlib Require Import ZArith String Ascii List.
From Stdlib Require SpecFloat.
From stdpp Require Import gmap strings list fin_maps pretty.

Set Warnings "-register-all".
Local Open Scope string_scope.

(** ** Values *)

(** What [JSON.parse] can produce.  A number is an IEEE 754 binary64
    datum; an object maps its own property names to values (the order of
    the properties, which no handler reads, is not kept). *)
Inductive json : Type :=
  | JNull
  | JBool (b : bool)
  | JNumber (x : SpecFloat.spec_float)
  | JString (s : string)
  | JArray (l : list json)
  | JObject (m : gmap string json).

(** The time value of a [Date] object: milliseconds since the epoch, or
    [None] for [NaN] (an "Invalid Date"). *)
Definition Date : Type := option Z.

(** The values a handler holds in the properties of an object: data that
    came through JSON, [Date] objects made by the store, and the two kinds
    of value an object literal inherits from [Object.prototype] (built-in
    functions, and [Object.prototype] itself under [__proto__]).
    [undefined] is the absence of a value: [None] at type [option value]. *)
Inductive value : Type :=
  | VJson (j : json)
  | VDate (d : Date)
  | VFunction (name : string)
  | VObjectPrototype.

Abbreviation object := (gmap string value).

(** ** The runtime *)

Class Platform : Type := {
  (** [JSON.parse(text)]; [None] when it throws [SyntaxError]. *)
  JSON_parse : string → option json;
  (** The time value of [new Date(v)] for a defined [v]. *)
  Date_of : json → Date;
  (** [Date.prototype.toJSON]: the ISO string, or [null] for an invalid date. *)
  Date_toJSON : Date → json;
  (** [String.prototype.trim]. *)
  trim : string → string
}.

(** [new Date(v)]: [new Date(undefined)] has time value [NaN]. *)
Definition newDate `{Platform} (v : option json) : Date :=
  match v with
  | None => None
  | Some j => Date_of j
  end.

(** JavaScript truthiness, with [undefined] as [None]. *)
Definition truthy_json (j : json) : bool :=
  match j with
  | JNull => false
  | JBool b => b
  | JNumber (SpecFloat.S754_zero _) | JNumber SpecFloat.S754_nan => false
  | JNumber _ => true
  | JString s => negb (String.eqb s "")
  | JArray _ | JObject _ => true
  end.

Definition truthy (v : option value) : bool :=
  match v with
  | None => false
  | Some (VJson j) => truthy_json j
  | Some (VDate _) | Some (VFunction _) | Some VObjectPrototype => true
  end.

(** [a || b] *)
Definition or_else (a b : option value) : option value :=
  if truthy a then a else b.

(** A property [k: v] of an object literal.  A property that holds
    [undefined] reads like one that is absent, and [JSON.stringify] leaves
    it out, so it is not kept. *)
Definition assign (k : string) (v : option value) (o : object) : object :=
  match v with
  | Some x => <[k := x]> o
  | None => delete k o
  end.

(** [s || d] on an optional string: the empty string is falsy. *)
Definition string_or (s : option string) (d : string) : string :=
  match s with
  | Some x => if String.eqb x "" then d else x
  | None => d
  end.

(** Property read [data.k] on a JSON value other than [null], for a name
    [k] that no prototype defines and that is neither an index nor [length]
    (the handlers read [start] and [end] only). *)
Definition property (data : json) (k : string) : option json :=
  match data with
  | JObject m => m !! k
  | _ => None
  end.

(** The own enumerable properties copied by a spread [{...data}]: those of
    an object, the indexed elements of an array, the indexed characters of a
    string (its bytes here, where JavaScript has UTF-16 code units), none
    for [null], booleans and numbers. *)
Definition indexed {A : Type} (l : list A) : gmap string A :=
  list_to_map (imap (λ i x, (pretty i, x)) l).

Definition spread (data : json) : gmap string json :=
  match data with
  | JObject m => m
  | JArray l => indexed l
  | JString s => indexed ((λ c, JString (String c "")) <$> list_ascii_of_string s)
  | JNull | JBool _ | JNumber _ => ∅
  end.

(** [JSON.stringify] of a property value: functions are left out;
    [Object.prototype] has no enumerable property of its own.  A JSON value
    is written as it is: the two kinds of number that [JSON.stringify] cannot
    write as they are (a non-finite number, which it writes as [null], and
    the negative zero, which it writes as [0]) are outside this model. *)
Definition stringify_value `{Platform} (v : value) : option json :=
  match v with
  | VJson j => Some j
  | VDate d => Some (Date_toJSON d)
  | VFunction _ => None
  | VObjectPrototype => Some (JObject ∅)
  end.

(** What the receiver of [JSON.stringify(o)] reads back with [req.json()]. *)
Definition JSON_stringify `{Platform} (o : object) : json :=
  JObject (omap stringify_value o).

(** ** Handlers: state and exceptions *)

Inductive exception : Type :=
  | TypeError
  | SyntaxError
  | APIError        (* thrown by the OpenAI client *)
  | FetchFailed.    (* [fetch] rejects: no response at all *)

(** [NextResponse.json(body, { status })]; the status defaults to 200. *)
Record response (A : Type) : Type := Response { status : Z; body : A }.
Arguments Response {A} _ _.
Arguments status {A} _.
Arguments body {A} _.

(** The state of the server process: the store of [app/api/events/route.ts]
    and, as a ghost trace, the prompts sent to the completion service. *)
Record world : Type := World {
  EVENTS : list object;
  upstream_log : list string
}.

(** A handler run either returns or throws, and leaves a new state. *)
Definition handler (A : Type) : Type := world → (A + exception) * world.

Definition handler_ret {A : Type} (x : A) : handler A := λ w, (inl x, w).

Definition handler_bind {A B : Type} (f : A → handler B) (m : handler A) : handler B :=
  λ w, match m w with
       | (inl x, w') => f x w'
       | (inr e, w') => (inr e, w')
       end.

Definition throw {A : Type} (e : exception) : handler A := λ w, (inr e, w).

#[export] Instance handler_mret : MRet handler := @handler_ret.
#[export] Instance handler_mbind : MBind handler := @handler_bind.

(** An optional value that must be defined, else the given exception. *)
Definition defined {A : Type} (o : option A) (e : exception) : handler A :=
  match o with
  | Some x => mret x
  | None => throw e
  end.

(** ** [app/api/events/route.ts] *)

Module Events.

(** [EVENTS.push(e)] *)
Definition push (e : object) : handler unit :=
  λ w, (inl tt, World (EVENTS w ++ [e]) (upstream_log w)).

(** [export async function GET()] *)
Definition GET : handler (response (list object)) :=
  λ w, (inl (Response 200 (EVENTS w)), w).

(** The object literal [{ ...data, start: new Date(data.start),
    end: new Date(data.end) }]. *)
Definition stored_event `{Platform} (data : json) : object :=
  <["end" := VDate (newDate (property data "end"))]>
    (<["start" := VDate (newDate (property data "start"))]>
       (VJson <$> spread data)).

(** [export async function POST(req)], with [data] the parsed body.
    Reading [data.start] throws when [data] is [null]. *)
Definition POST `{Platform} (data : json) : handler (response object) :=
  match data with
  | JNull => throw TypeError
  | _ =>
      _ ← push (stored_event data);
      mret (Response 200 {[ "status" := VJson (JString "ok") ]})
  end.

End Events.

(** ** [app/api/openai/route.ts] *)

Module OpenAI.

(** The own properties of the object literal [EVENT_TYPE_COLORS]. *)
Definition EVENT_TYPE_COLORS : gmap string string :=
  list_to_map
    [ ("lecture", "#3B82F6");
      ("tutorial", "#10B981");
      ("club", "#8B5CF6");
      ("social", "#EC4899");
      ("exam", "#EF4444");
      ("assignment", "#F59E0B");
      ("other", "#6B7280") ].

(** What every object literal inherits: the properties of
    [Object.prototype]. *)
Definition Object_prototype : gmap string value :=
  list_to_map
    [ ("constructor", VFunction "Object");
      ("__proto__", VObjectPrototype);
      ("__defineGetter__", VFunction "__defineGetter__");
      ("__defineSetter__", VFunction "__defineSetter__");
      ("__lookupGetter__", VFunction "__lookupGetter__");
      ("__lookupSetter__", VFunction "__lookupSetter__");
      ("hasOwnProperty", VFunction "hasOwnProperty");
      ("isPrototypeOf", VFunction "isPrototypeOf");
      ("propertyIsEnumerable", VFunction "propertyIsEnumerable");
      ("toLocaleString", VFunction "toLocaleString");
      ("toString", VFunction "toString");
      ("valueOf", VFunction "valueOf") ].

(** The property read [o[k]] on an object literal with string-valued own
    properties: own properties first, then the prototype. *)
Definition member (o : gmap string string) (k : string) : option value :=
  match o !! k with
  | Some s => Some (VJson (JString s))
  | None => Object_prototype !! k
  end.

(** [EVENT_TYPE_COLORS[eventType] || EVENT_TYPE_COLORS.other] *)
Definition color_of (eventType : string) : option value :=
  or_else (member EVENT_TYPE_COLORS eventType) (member EVENT_TYPE_COLORS "other").

Definition quote : string := String "034"%char "".
Definition nl : string := String "010"%char (String "009"%char "").

Definition duration_guidance : string :=
  "- If no end time is specified, make it 1 hour long for lectures/tutorials, 30 minutes for social events, 2-3 hours for exams".

(** The template literal [contextualPrompt]; [today] is
    [new Date().toDateString()]. *)
Definition contextualPrompt (prompt eventType today : string) : string :=
  nl ++ "Create a calendar event from this description: " ++ quote ++ prompt ++ quote ++
  nl ++
  nl ++ "Event context: This is a " ++ eventType ++ " event." ++
  nl ++
  nl ++ "Additional guidelines:" ++
  nl ++ duration_guidance ++
  nl ++ "- For recurring events (like " ++ quote ++ "every Monday" ++ quote ++ "), create just one instance for now" ++
  nl ++ "- Include relevant details in the description field" ++
  nl ++ "- Use the current date context: Today is " ++ today ++
  nl ++ "- Be smart about relative dates: " ++ quote ++ "tomorrow" ++ quote ++ ", " ++ quote ++ "next week" ++ quote ++ ", " ++ quote ++ "Friday" ++ quote ++ ", etc." ++
  nl ++ "- Consider academic context for scheduling (avoid very early/late hours unless specified)" ++
  nl.

(** The part of a chat completion that the handler reads. *)
Record FunctionCall : Type := { arguments : option string }.
Record ToolCall : Type := { function : FunctionCall }.
Record Message : Type := { tool_calls : option (list ToolCall) }.
Record Choice : Type := { message : Message }.
Record ChatCompletion : Type := { choices : list Choice }.

(** Where the request [fetch(".../api/events", { method: "POST", ... })]
    ends up: at the [POST] handler of this process, at something else that
    answers with a status, or nowhere. *)
Inductive delivery : Type :=
  | Delivered
  | Answered (st : Z)
  | Unreachable.

(** What the outside decides during one run of the handler. *)
Record environment : Type := {
  today : string;
  (** [openai.chat.completions.create] on a prompt; [None] when it rejects *)
  completions_create : string → option ChatCompletion;
  events_route : delivery
}.

(** The body of a request to the handler, [{ prompt, eventType }], with
    the types that the form gives to its fields; [eventType] may be left
    out.  A body that is not of this shape (not JSON, [null], fields that
    are not strings) is outside this type; on the first two, reading the
    body throws before anything else is done. *)
Record request : Type := { prompt : string; eventType : option string }.

(** [await openai.chat.completions.create({ ..., messages: [{ role: "user",
    content }], ... })] *)
Definition chat_completions_create (env : environment) (content : string)
  : handler ChatCompletion :=
  λ w, (match completions_create env content with
        | Some chat => inl chat
        | None => inr APIError
        end,
        World (EVENTS w) (upstream_log w ++ [content])).

(** [await fetch(".../api/events", { method: "POST", body })]: the status of
    the response.  A handler that throws is answered with 500 by the
    framework. *)
Definition fetch_events `{Platform} (env : environment) (body : json) : handler Z :=
  match events_route env with
  | Delivered =>
      λ w, match Events.POST body w with
           | (inl r, w') => (inl (status r), w')
           | (inr _, w') => (inl 500%Z, w')
           end
  | Answered st => mret st
  | Unreachable => throw FetchFailed
  end.

(** The object literal [{ ...eventData, eventType, color: ..., resource:
    eventType }]. *)
Definition enhancedEventData (eventData : json) (eventType : string) : object :=
  <["resource" := VJson (JString eventType)]>
    (assign "color" (color_of eventType)
       (<["eventType" := VJson (JString eventType)]>
          (VJson <$> spread eventData))).

(** [first.message.tool_calls?.[0]] *)
Definition first_tool_call (first : Choice) : option ToolCall :=
  tool_calls (message first) ≫= (λ calls, calls !! 0%nat).

(** [export async function POST(req)] *)
Definition POST `{Platform} (env : environment) (req : request)
  : handler (response object) :=
  let eventType := default "other" (eventType req) in
  chat ← chat_completions_create env (contextualPrompt (prompt req) eventType (today env));
  first ← defined (choices chat !! 0%nat) TypeError;
  match first_tool_call first with
  | None => mret (Response 400 {[ "error" := VJson (JString "No function call") ]})
  | Some toolCall =>
      eventData ← defined (JSON_parse (string_or (arguments (function toolCall)) "{}")) SyntaxError;
      let enhanced := enhancedEventData eventData eventType in
      res ← fetch_events env (JSON_stringify enhanced);
      mret (Response 200 enhanced)
  end.

End OpenAI.

(** ** [components/AI_Input.tsx] *)

Module AI_Input.
Import OpenAI.

(** [type EventType]: the categories that the form offers. *)
Inductive EventType : Type :=
  | lecture | tutorial | club | social | exam | assignment | other.

(** The string that a category is. *)
Definition EventType_key (t : EventType) : string :=
  match t with
  | lecture => "lecture"
  | tutorial => "tutorial"
  | club => "club"
  | social => "social"
  | exam => "exam"
  | assignment => "assignment"
  | other => "other"
  end.

Record form : Type := Form {
  input : string;
  loading : bool;
  selectedType : EventType;
  showSuccess : bool
}.

(** [handleSubmit]: the state of the form and of the server after the
    submission has settled.  A handler that threw is answered by the
    framework with a 500 page whose body [res.json()] cannot read, which
    takes the [catch] branch.  The timer that hides the success message
    after three seconds is left out. *)
Definition handleSubmit `{Platform} (env : environment) (f : form) (w : world)
  : form * world :=
  if String.eqb (trim (input f)) "" then (f, w)
  else
    match OpenAI.POST env {| prompt := input f; eventType := Some (EventType_key (selectedType f)) |} w with
    | (inl data, w') => (Form "" false (selectedType f) true, w')
    | (inr error, w') => (Form (input f) false (selectedType f) false, w')
    end.

End AI_Input.

Import Events OpenAI AI_Input.

(** ** A platform to run the handlers on

    An executable instance of [Platform], for evaluating the handlers on
    concrete requests.  It reads the JSON texts and the date-time strings
    that occur in practice and nothing more: [JSON_parse] reads no fraction,
    exponent or [\u] escape, [Date_of] reads the ISO forms
    [YYYY-MM-DD] and [YYYY-MM-DDTHH:mm:ss(.sss)Z] and answers an invalid date
    for arrays and objects, [trim] strips the ASCII white space.  The
    theorems about the handlers hold for every platform; this one serves
    their examples. *)
Module Reference.

Definition is_space (c : ascii) : bool :=
  let n := nat_of_ascii c in
  (Nat.leb 9 n && Nat.leb n 13) || Nat.eqb n 32.

Fixpoint trim_start (l : list ascii) : list ascii :=
  match l with
  | c :: r => if is_space c then trim_start r else l
  | [] => []
  end.

Definition trim (s : string) : string :=
  string_of_list_ascii
    (rev (trim_start (rev (trim_start (list_ascii_of_string s))))).

(** *** Reading JSON *)

Definition is_json_space (c : ascii) : bool :=
  let n := nat_of_ascii c in
  Nat.eqb n 9 || Nat.eqb n 10 || Nat.eqb n 13 || Nat.eqb n 32.

Fixpoint skip_space (l : list ascii) : list ascii :=
  match l with
  | c :: r => if is_json_space c then skip_space r else l
  | [] => []
  end.

Definition digit (c : ascii) : option Z :=
  let n := nat_of_ascii c in
  if Nat.leb 48 n && Nat.leb n 57 then Some (Z.of_nat (n - 48)) else None.

Definition unescape (c : ascii) : option ascii :=
  match c with
  | "034"%char | "/"%char | "\"%char => Some c
  | "b"%char => Some "008"%char
  | "f"%char => Some "012"%char
  | "n"%char => Some "010"%char
  | "r"%char => Some "013"%char
  | "t"%char => Some "009"%char
  | _ => None
  end.

(** The characters of a string literal after its opening quote. *)
Fixpoint read_string (l : list ascii) : option (string * list ascii) :=
  match l with
  | [] => None
  | "034"%char :: r => Some ("", r)
  | "\"%char :: e :: r =>
      match unescape e, read_string r with
      | Some c, Some (s, r') => Some (String c s, r')
      | _, _ => None
      end
  | c :: r =>
      if Nat.ltb (nat_of_ascii c) 32 then None
      else match read_string r with
           | Some (s, r') => Some (String c s, r')
           | None => None
           end
  end.

Fixpoint read_digits (acc : Z) (l : list ascii) : Z * list ascii :=
  match l with
  | c :: r =>
      match digit c with
      | Some d => read_digits (10 * acc + d) r
      | None => (acc, l)
      end
  | [] => (acc, [])
  end.

Definition number_of_Z (negative : bool) (n : Z) : SpecFloat.spec_float :=
  SpecFloat.binary_normalize 53 1024 (if negative then - n else n) 0 negative.

(** An integer literal; a fraction or an exponent is not read. *)
Definition read_number (l : list ascii) : option (json * list ascii) :=
  let '(negative, l1) :=
    match l with
    | "-"%char :: r => (true, r)
    | _ => (false, l)
    end in
  match l1 with
  | c :: r =>
      match digit c with
      | Some d =>
          let '(n, rest) := if Z.eqb d 0 then (0%Z, r) else read_digits d r in
          match rest with
          | "."%char :: _ | "e"%char :: _ | "E"%char :: _ => None
          | c' :: _ =>
              match digit c' with
              | Some _ => None
              | None => Some (JNumber (number_of_Z negative n), rest)
              end
          | [] => Some (JNumber (number_of_Z negative n), rest)
          end
      | None => None
      end
  | [] => None
  end.

Fixpoint read_value (fuel : nat) (l : list ascii) {struct fuel}
  : option (json * list ascii) :=
  match fuel with
  | O => None
  | S fuel =>
      match skip_space l with
      | "n"%char :: "u"%char :: "l"%char :: "l"%char :: r => Some (JNull, r)
      | "t"%char :: "r"%char :: "u"%char :: "e"%char :: r => Some (JBool true, r)
      | "f"%char :: "a"%char :: "l"%char :: "s"%char :: "e"%char :: r => Some (JBool false, r)
      | "034"%char :: r =>
          match read_string r with
          | Some (s, r') => Some (JString s, r')
          | None => None
          end
      | "["%char :: r =>
          match skip_space r with
          | "]"%char :: r' => Some (JArray [], r')
          | _ => read_elements fuel [] r
          end
      | "{"%char :: r =>
          match skip_space r with
          | "}"%char :: r' => Some (JObject ∅, r')
          | _ => read_members fuel ∅ r
          end
      | l' => read_number l'
      end
  end
with read_elements (fuel : nat) (acc : list json) (l : list ascii) {struct fuel}
  : option (json * list ascii) :=
  match fuel with
  | O => None
  | S fuel =>
      match read_value fuel l with
      | Some (v, r) =>
          match skip_space r with
          | ","%char :: r' => read_elements fuel (acc ++ [v]) r'
          | "]"%char :: r' => Some (JArray (acc ++ [v]), r')
          | _ => None
          end
      | None => None
      end
  end
with read_members (fuel : nat) (acc : gmap string json) (l : list ascii) {struct fuel}
  : option (json * list ascii) :=
  match fuel with
  | O => None
  | S fuel =>
      match skip_space l with
      | "034"%char :: r =>
          match read_string r with
          | Some (k, r1) =>
              match skip_space r1 with
              | ":"%char :: r2 =>
                  match read_value fuel r2 with
                  | Some (v, r3) =>
                      match skip_space r3 with
                      | ","%char :: r4 => read_members fuel (<[k := v]> acc) r4
                      | "}"%char :: r4 => Some (JObject (<[k := v]> acc), r4)
                      | _ => None
                      end
                  | None => None
                  end
              | _ => None
              end
          | None => None
          end
      | _ => None
      end
  end.

Definition JSON_parse (text : string) : option json :=
  let l := list_ascii_of_string text in
  match read_value (2 * length l + 2) l with
  | Some (v, r) =>
      match skip_space r with
      | [] => Some v
      | _ => None
      end
  | None => None
  end.

(** *** Dates *)

Local Open Scope Z_scope.

Fixpoint read_fixed (n : nat) (acc : Z) (l : list ascii) : option (Z * list ascii) :=
  match n with
  | O => Some (acc, l)
  | S n =>
      match l with
      | c :: r =>
          match digit c with
          | Some d => read_fixed n (10 * acc + d) r
          | None => None
          end
      | [] => None
      end
  end.

Definition expect (c : ascii) (l : list ascii) : option (list ascii) :=
  match l with
  | c' :: r => if Ascii.eqb c c' then Some r else None
  | [] => None
  end.

(** Days from 1970-01-01 to the given day of the proleptic Gregorian
    calendar. *)
Definition days_from_civil (y m d : Z) : Z :=
  let y := if m <=? 2 then y - 1 else y in
  let era := y / 400 in
  let yoe := y - era * 400 in
  let doy := (153 * (if 2 <? m then m - 3 else m + 9) + 2) / 5 + d - 1 in
  let doe := yoe * 365 + yoe / 4 - yoe / 100 + doy in
  era * 146097 + doe - 719468.

Definition civil_from_days (z : Z) : Z * Z * Z :=
  let z := z + 719468 in
  let era := z / 146097 in
  let doe := z - era * 146097 in
  let yoe := (doe - doe / 1460 + doe / 36524 - doe / 146096) / 365 in
  let doy := doe - (365 * yoe + yoe / 4 - yoe / 100) in
  let mp := (5 * doy + 2) / 153 in
  let d := doy - (153 * mp + 2) / 5 + 1 in
  let m := if mp <? 10 then mp + 3 else mp - 9 in
  (if m <=? 2 then yoe + era * 400 + 1 else yoe + era * 400, m, d).

Definition time_value (y mo d h mi s ms : Z) : Date :=
  if (1 <=? mo) && (mo <=? 12) && (1 <=? d) && (d <=? 31)
     && (h <? 24) && (mi <? 60) && (s <? 60)
  then Some ((((days_from_civil y mo d * 24 + h) * 60 + mi) * 60 + s) * 1000 + ms)
  else None.

(** The time of day [THH:mm], [THH:mm:ss] or [THH:mm:ss.sss], followed
    by [Z]. *)
Definition read_time (l : list ascii) : option (Z * Z * Z * Z) :=
  l ← expect "T" l;
  '(h, l) ← read_fixed 2 0 l;
  l ← expect ":" l;
  '(mi, l) ← read_fixed 2 0 l;
  match l with
  | ["Z"%char] => Some (h, mi, 0, 0)
  | ":"%char :: l =>
      '(s, l) ← read_fixed 2 0 l;
      match l with
      | ["Z"%char] => Some (h, mi, s, 0)
      | "."%char :: l =>
          '(ms, l) ← read_fixed 3 0 l;
          match l with
          | ["Z"%char] => Some (h, mi, s, ms)
          | _ => None
          end
      | _ => None
      end
  | _ => None
  end.

(** [Date.parse] *)
Definition Date_parse (text : string) : Date :=
  '(y, l) ← read_fixed 4 0 (list_ascii_of_string text);
  l ← expect "-" l;
  '(mo, l) ← read_fixed 2 0 l;
  l ← expect "-" l;
  '(d, l) ← read_fixed 2 0 l;
  match l with
  | [] => time_value y mo d 0 0 0 0
  | _ => '(h, mi, s, ms) ← read_time l; time_value y mo d h mi s ms
  end.

(** [TimeClip] *)
Definition time_clip (t : Z) : Date :=
  if Z.abs t <=? 8640000000000000 then Some t else None.

(** The number truncated to an integer, as a time value. *)
Definition Date_of_number (x : SpecFloat.spec_float) : Date :=
  match x with
  | SpecFloat.S754_zero _ => Some 0
  | SpecFloat.S754_finite negative m e =>
      let n := if 0 <=? e then Z.pos m * 2 ^ e else Z.pos m / 2 ^ (- e) in
      time_clip (if negative then - n else n)
  | SpecFloat.S754_infinity _ | SpecFloat.S754_nan => None
  end.

Definition Date_of (j : json) : Date :=
  match j with
  | JString s => Date_parse s
  | JNumber x => Date_of_number x
  | JBool b => Some (if b then 1 else 0)
  | JNull => Some 0
  | JArray _ | JObject _ => None
  end.

Fixpoint padded (width : nat) (n : Z) (acc : string) : string :=
  match width with
  | O => acc
  | S width =>
      padded width (n / 10) (String (ascii_of_nat (48 + Z.to_nat (n mod 10))) acc)
  end.

(** [Date.prototype.toISOString] *)
Definition toISOString (t : Z) : string :=
  let '(y, m, d) := civil_from_days (t / 86400000) in
  let r := t mod 86400000 in
  (if (0 <=? y) && (y <=? 9999) then padded 4 y ""
   else (if y <? 0 then "-" else "+") ++ padded 6 (Z.abs y) "")
  ++ "-" ++ padded 2 m "" ++ "-" ++ padded 2 d ""
  ++ "T" ++ padded 2 (r / 3600000) "" ++ ":" ++ padded 2 (r / 60000 mod 60) ""
  ++ ":" ++ padded 2 (r / 1000 mod 60) "" ++ "." ++ padded 3 (r mod 1000) "" ++ "Z".

Definition Date_toJSON (d : Date) : json :=
  match d with
  | Some t => JString (toISOString t)
  | None => JNull
  end.

(** A JSON text written with apostrophes in place of quotation marks. *)
Definition json_text (s : string) : string :=
  string_of_list_ascii
    ((λ c, if Ascii.eqb c "'" then "034"%char else c) <$> list_ascii_of_string s).

End Reference.

Definition reference_platform : Platform := {|
  JSON_parse := Reference.JSON_parse;
  Date_of := Reference.Date_of;
  Date_toJSON := Reference.Date_toJSON;
  trim := Reference.trim
|}.

(** ** The earlier handler of [app/api/openai/route.ts]

    The handler as it was before event types: the prompt goes to the
    completion service as it is, and the proposal goes to the store and to
    the caller as it was parsed. *)

Module OpenAI_first.

(** [export async function POST(req)], with [prompt] the field of the
    body. *)
Definition POST `{Platform} (env : environment) (prompt : string)
  : handler (response json) :=
  chat ← chat_completions_create env prompt;
  first ← defined (choices chat !! 0%nat) TypeError;
  match first_tool_call first with
  | None => mret (Response 400 (JObject {[ "error" := JString "No function call" ]}))
  | Some toolCall =>
      eventData ← defined (JSON_parse (string_or (arguments (function toolCall)) "{}")) SyntaxError;
      res ← fetch_events env eventData;
      mret (Response 200 eventData)
  end.

End OpenAI_first.

(** ** The earlier form

    [AIInput] with the two states [input] and [loading]. *)

Module AI_Input_first.

Record form : Type := Form { input : string; loading : bool }.

(** [handleSubmit], for a route [api] behind [/api/openai] that is sent
    [{ prompt: input }].  There is no [try]: when [res.json()] throws (the
    route threw, and the framework answered with a 500 page), the two state
    updates after it are not made. *)
Definition handleSubmit `{Platform} {A : Type} (api : request → handler A)
  (f : form) (w : world) : form * world :=
  if String.eqb (trim (input f)) "" then (f, w)
  else
    match api {| prompt := input f; eventType := None |} w with
    | (inl data, w') => (Form "" false, w')
    | (inr _, w') => (Form (input f) true, w')
    end.

End AI_Input_first.

(** ** Strings of values *)

(** [Number.prototype.toString], the one conversion to a string that is
    left to the runtime. *)
Class Numbers : Type := {
  Number_toString : SpecFloat.spec_float → string
}.

(** [String(v)] for a JSON value: an array is its elements joined by
    commas, with nothing for [null]; an object is ["[object Object]"]. *)
Fixpoint ToString `{Numbers} (j : json) : string :=
  match j with
  | JNull => "null"
  | JBool b => if b then "true" else "false"
  | JNumber x => Number_toString x
  | JString s => s
  | JArray l =>
      String.concat ","
        (List.map (λ e, match e with JNull => "" | _ => ToString e end) l)
  | JObject _ => "[object Object]"
  end.

(** The property key that a value is, in [o[v]]. *)
Definition ToPropertyKey `{Numbers} (v : option json) : string :=
  match v with
  | None => "undefined"
  | Some j => ToString j
  end.

(** [a || b] on JSON values. *)
Definition or_json (a b : option json) : option json :=
  match a with
  | Some j => if truthy_json j then a else b
  | None => b
  end.

(** ** The calendar component *)

Module Calendar.

(** The [color] of each entry of [EVENT_TYPES] (the other fields, [label],
    [icon], [bgColor] and [textColor], are read by the rendering only). *)
Definition EVENT_TYPES : gmap string string :=
  list_to_map
    [ ("lecture", "#3b82f6");
      ("tutorial", "#10b981");
      ("club", "#8b5cf6");
      ("social", "#ec4899");
      ("exam", "#ef4444");
      ("assignment", "#f97316");
      ("other", "#6b7280") ].

(** [EVENT_TYPES[k]?.color]: the colour of an own entry; [undefined] when
    there is no such property, and also when the property is inherited from
    [Object.prototype], since what is inherited has no [color]. *)
Definition type_color (k : string) : option value :=
  VJson ∘ JString <$> EVENT_TYPES !! k.

(** The state of [CalendarView]. *)
Record state : Type := State {
  events : list object;
  filter : list string;
  loading : bool
}.

(** The function mapped over the events that were fetched:
    [{ ...event, start: new Date(event.start),
       end: new Date(event.end || event.start),
       color: EVENT_TYPES[event.eventType]?.color || EVENT_TYPES.other.color }];
    [None] when it throws, which reading [event.start] does on [null]. *)
Definition transform `{Platform} `{Numbers} (event : json) : option object :=
  match event with
  | JNull => None
  | _ =>
      Some
        (assign "color"
           (or_else (type_color (ToPropertyKey (property event "eventType")))
                    (type_color "other"))
           (<["end" := VDate (newDate (or_json (property event "end") (property event "start")))]>
              (<["start" := VDate (newDate (property event "start"))]>
                 (VJson <$> spread event))))
  end.

(** [data.events?.map(...) || []]; [None] when it throws: on [data.events]
    when [data] is [null], on [.map] when [data.events] is neither nullish
    nor an array, or inside the mapped function. *)
Definition transformedEvents `{Platform} `{Numbers} (data : json) : option (list object) :=
  match data with
  | JNull => None
  | _ =>
      match property data "events" with
      | None | Some JNull => Some []
      | Some (JArray l) => mapM transform l
      | Some _ => None
      end
  end.

(** [fetchEvents], given what [response.json()] reads in the answer to
    [fetch("/api/events")], [None] when the request or the reading fails.
    Whatever throws inside the [try] is caught, and the events are set to
    the empty array. *)
Definition fetchEvents `{Platform} `{Numbers} (answer : option json) (s : state) : state :=
  State (default [] (answer ≫= transformedEvents)) (filter s) false.

(** What [response.json()] reads in the answer of the store's [GET]:
    [NextResponse.json(EVENTS)]. *)
Definition listed `{Platform} (w : world) : json :=
  JArray (JSON_stringify <$> EVENTS w).

(** [filter.includes(v)] for a value [v] and an array of strings. *)
Definition includes (l : list string) (v : option value) : bool :=
  match v with
  | Some (VJson (JString s)) => bool_decide (s ∈ l)
  | _ => false
  end.

(** [v === eventType] for a string [eventType]. *)
Definition is_type (eventType : string) (v : option value) : bool :=
  match v with
  | Some (VJson (JString s)) => String.eqb s eventType
  | _ => false
  end.

(** [filteredEvents] *)
Definition filteredEvents (s : state) : list object :=
  if Nat.eqb (length (filter s)) 0 then events s
  else List.filter (λ event, includes (filter s) (event !! "eventType")) (events s).

(** The update that [toggleFilter(eventType)] makes of the filter. *)
Definition toggleFilter (eventType : string) (prev : list string) : list string :=
  if bool_decide (eventType ∈ prev)
  then List.filter (λ type, negb (String.eqb type eventType)) prev
  else prev ++ [eventType].

(** [getEventCount] *)
Definition getEventCount (s : state) (eventType : string) : nat :=
  length (List.filter (λ event, is_type eventType (event !! "eventType")) (events s)).


End Calendar.


(** ** Notions for the statements *)

(** The decimal digits. *)
Definition is_digit (c : ascii) : bool :=
  let n := nat_of_ascii c in Nat.leb 48 n && Nat.leb n 57.

(** A property name that is not an array index: it does not start with a
    digit. *)
Definition named (k : string) : bool :=
  match k with
  | String c _ => negb (is_digit c)
  | EmptyString => true
  end.

(** The three properties that the handler sets. *)
Definition set_by_handler (k : string) : bool :=
  String.eqb k "eventType" || String.eqb k "color" || String.eqb k "resource".

(** The prompt that a request makes the handler send. *)
Definition sent (env : environment) (req : request) : string :=
  contextualPrompt (prompt req) (default "other" (eventType req)) (today env).

(** The state after the completion service has been called. *)
Definition called (env : environment) (req : request) (w : world) : world :=
  World (EVENTS w) (upstream_log w ++ [sent env req]).

(** The state after the store's handler has received the enhanced event. *)
Definition forwarded `{Platform} (env : environment) (req : request) (eventData : json)
  (w : world) : world :=
  World (EVENTS w ++ [stored_event (JSON_stringify
           (enhancedEventData eventData (default "other" (eventType req))))])
        (upstream_log w ++ [sent env req]).

(** The completion service answers the request with a function call
    whose arguments [JSON.parse] reads as [eventData]. *)
Definition proposes `{Platform} (env : environment) (req : request) (eventData : json) : Prop :=
  ∃ chat first toolCall,
    completions_create env (sent env req) = Some chat
    ∧ choices chat !! 0%nat = Some first
    ∧ first_tool_call first = Some toolCall
    ∧ JSON_parse (string_or (arguments (function toolCall)) "{}") = Some eventData.

(** A request to the server: a submission to [/api/openai], or an event
    posted to [/api/events] (as [createEvent] of [lib/api.ts] does). *)
Inductive action : Type :=
  | Submit (env : environment) (req : request)
  | Create (data : json).

(** The state of the server after a request, and after a sequence of
    requests. *)
Definition perform `{Platform} (w : world) (a : action) : world :=
  match a with
  | Submit env req => snd (OpenAI.POST env req w)
  | Create data => snd (Events.POST data w)
  end.

Definition run `{Platform} (w : world) (l : list action) : world :=
  foldl perform w l.

(** The stored event has valid dates, and does not end before it starts. *)
Definition ordered (e : object) : Prop :=
  ∃ ts te, e !! "start" = Some (VDate (Some ts))
           ∧ e !! "end" = Some (VDate (Some te))
           ∧ (ts ≤ te)%Z.

(** The same of a proposal, for the dates that [new Date] makes of its
    [start] and [end]. *)
Definition ordered_proposal `{Platform} (eventData : json) : Prop :=
  ∃ ts te, newDate (property eventData "start") = Some ts
           ∧ newDate (property eventData "end") = Some te
           ∧ (ts ≤ te)%Z.

(** The event has [start] and [end], and they are [Date] objects. *)
Definition dated (e : object) : Prop :=
  ∃ ds de, e !! "start" = Some (VDate ds) ∧ e !! "end" = Some (VDate de).

(** The request that the form makes of its state. *)
Definition request_of (f : form) : request :=
  {| prompt := input f; eventType := Some (EventType_key (selectedType f)) |}.


(** ** Requests for the examples *)

Definition tool_call_with (args : option string) : ChatCompletion :=
  {| choices := [ {| message := {| tool_calls :=
       Some [ {| function := {| arguments := args |} |} ] |} |} ] |}.

(** A completion that has no choice at all. *)
Definition no_choices : ChatCompletion := {| choices := [] |}.

Definition no_tool_call : ChatCompletion :=
  {| choices := [ {| message := {| tool_calls := None |} |} ] |}.

(** The completion service answers every prompt with [chat]. *)
Definition answering (chat : ChatCompletion) (route : delivery) : environment :=
  {| today := "Tue Jul 29 2025";
     completions_create := λ _, Some chat;
     events_route := route |}.

Definition empty_world : world := World [] [].

Definition coffee_request : request :=
  {| prompt := "Coffee with Sam tomorrow at 3pm"; eventType := Some "social" |}.

(** The proposal of the end-to-end scenario: no [end]. *)
Definition coffee_proposal : string :=
  Reference.json_text
    "{'title':'Coffee with Sam','start':'2025-07-30T15:00:00Z','description':'Coffee meetup'}".

Definition lecture_request : request :=
  {| prompt := "Math lecture tomorrow at 9am"; eventType := Some "lecture" |}.

(** The lecture, sent with the event type [constructor]. *)
Definition constructor_request : request :=
  {| prompt := "Math lecture tomorrow at 9am"; eventType := Some "constructor" |}.

Definition lecture_proposal : string :=
  Reference.json_text
    "{'title':'Math lecture','start':'2025-07-29T09:00:00Z','end':'2025-07-29T10:00:00Z','description':'Mathematics class'}".

(** A proposal that ends an hour before it starts. *)
Definition backwards_proposal : string :=
  Reference.json_text
    "{'title':'Math lecture','start':'2025-07-29T09:00:00Z','end':'2025-07-29T08:00:00Z'}".


(** What [JSON.parse] reads in the proposals. *)
Definition coffee_data : json :=
  JObject (<["title" := JString "Coffee with Sam"]>
             (<["start" := JString "2025-07-30T15:00:00Z"]>
                (<["description" := JString "Coffee meetup"]> ∅))).

Definition lecture_data : json :=
  JObject (<["title" := JString "Math lecture"]>
             (<["start" := JString "2025-07-29T09:00:00Z"]>
                (<["end" := JString "2025-07-29T10:00:00Z"]>
                   (<["description" := JString "Mathematics class"]> ∅)))).

(** A request that leaves [eventType] out. *)
Definition untyped_request : request :=
  {| prompt := "Math lecture tomorrow at 9am"; eventType := None |}.

(** The form with the text of the lecture, and the type [lecture]
    selected. *)
Definition lecture_form : form :=
  Form "Math lecture tomorrow at 9am" false lecture false.

Definition earlier_form : AI_Input_first.form :=
  AI_Input_first.Form "Math lecture tomorrow at 9am" false.


(** The keys of [EVENT_TYPES], in the order of [Object.entries]. *)
Definition seven_types : list string :=
  ["lecture"; "tutorial"; "club"; "social"; "exam"; "assignment"; "other"].

(** A calendar that holds two lectures, an exam and an event of no type. *)
Definition some_calendar : Calendar.state :=
  Calendar.State
    [ {[ "eventType" := VJson (JString "lecture") ]};
      {[ "eventType" := VJson (JString "exam") ]};
      {[ "eventType" := VJson (JString "lecture") ]};
      {[ "title" := VJson (JString "Untyped") ]} ]
    [] false.

(** * Properties *)

(** ** Objects *)

Lemma pretty_N_char_digit (x : N) : is_digit (pretty_N_char x) = true.
Proof. unfold pretty_N_char. by repeat case_match. Qed.

Lemma pretty_N_go_named (x : N) (s : string) :
  named s = false → named (pretty_N_go x s) = false.
Proof.
  revert s. induction (N.lt_wf_0 x) as [x _ IH]; intros s Hs.
  destruct (decide (x = 0%N)) as [->|Hx].
  - by rewrite pretty_N_go_0.
  - rewrite pretty_N_go_step by lia. apply IH.
    + apply N.div_lt; lia.
    + simpl. by rewrite pretty_N_char_digit.
Qed.

(** The decimal form of an index starts with a digit. *)
Lemma pretty_nat_not_named (i : nat) : named (pretty i) = false.
Proof.
  unfold pretty, pretty_nat, pretty, pretty_N.
  destruct (decide (N.of_nat i = 0%N)) as [|Hi]; [reflexivity|].
  rewrite pretty_N_go_step by lia.
  apply pretty_N_go_named. simpl. by rewrite pretty_N_char_digit.
Qed.

Lemma imap_keys_named {A : Type} (f : nat → nat) (l : list A) (k : string) :
  named k = true →
  (list_to_map (imap (λ i x, (pretty (f i), x)) l) : gmap string A) !! k = None.
Proof.
  intros Hk. revert f. induction l as [|x l IH]; intros f; simpl.
  - apply lookup_empty.
  - rewrite lookup_insert_ne.
    + apply (IH (f ∘ S)).
    + intros <-. by rewrite pretty_nat_not_named in Hk.
Qed.

Lemma indexed_named {A : Type} (l : list A) (k : string) :
  named k = true → indexed l !! k = None.
Proof. apply (imap_keys_named id). Qed.

(** Reading a named property of the spread of a value is reading it from
    the value. *)
Lemma spread_named (data : json) (k : string) :
  named k = true → spread data !! k = property data k.
Proof.
  intros Hk. destruct data; simpl; try apply lookup_empty; try done.
  - by apply indexed_named.
  - by apply indexed_named.
Qed.

Lemma enhancedEventData_eventType (eventData : json) (t : string) :
  enhancedEventData eventData t !! "eventType" = Some (VJson (JString t)).
Proof.
  unfold enhancedEventData, assign.
  rewrite lookup_insert_ne by done.
  destruct (color_of t).
  - rewrite lookup_insert_ne by done. apply lookup_insert_eq.
  - rewrite lookup_delete_ne by done. apply lookup_insert_eq.
Qed.

Lemma enhancedEventData_resource (eventData : json) (t : string) :
  enhancedEventData eventData t !! "resource" = Some (VJson (JString t)).
Proof. apply lookup_insert_eq. Qed.

Lemma enhancedEventData_color (eventData : json) (t : string) :
  enhancedEventData eventData t !! "color" = color_of t.
Proof.
  unfold enhancedEventData, assign.
  rewrite lookup_insert_ne by done.
  destruct (color_of t).
  - apply lookup_insert_eq.
  - apply lookup_delete_eq.
Qed.

Lemma set_by_handler_false (k : string) :
  set_by_handler k = false → k ≠ "eventType" ∧ k ≠ "color" ∧ k ≠ "resource".
Proof.
  unfold set_by_handler. intros Hk.
  apply orb_false_iff in Hk as [Hk Hr]. apply orb_false_iff in Hk as [He Hc].
  apply String.eqb_neq in Hr, He, Hc. done.
Qed.

(** Every other property is the proposal's. *)
Lemma enhancedEventData_other (eventData : json) (t k : string) :
  set_by_handler k = false →
  enhancedEventData eventData t !! k = VJson <$> spread eventData !! k.
Proof.
  intros (He & Hc & Hr)%set_by_handler_false.
  unfold enhancedEventData, assign.
  rewrite lookup_insert_ne by done.
  destruct (color_of t).
  - rewrite !lookup_insert_ne by done. apply lookup_fmap.
  - rewrite lookup_delete_ne, lookup_insert_ne by done. apply lookup_fmap.
Qed.

(** ** Colours *)

Lemma EVENT_TYPE_COLORS_truthy (t c : string) :
  EVENT_TYPE_COLORS !! t = Some c → truthy (Some (VJson (JString c))) = true.
Proof.
  intros Ht. apply elem_of_list_to_map_2 in Ht.
  repeat (apply elem_of_cons in Ht as [[= _ ->]|Ht]; [reflexivity|]).
  by apply elem_of_nil in Ht.
Qed.

Lemma Object_prototype_truthy (k : string) (v : value) :
  Object_prototype !! k = Some v → truthy (Some v) = true.
Proof.
  intros Hk. apply elem_of_list_to_map_2 in Hk.
  repeat (apply elem_of_cons in Hk as [[= _ ->]|Hk]; [reflexivity|]).
  by apply elem_of_nil in Hk.
Qed.

(** An own property of the table is the colour. *)
Lemma color_of_own (t c : string) :
  EVENT_TYPE_COLORS !! t = Some c → color_of t = Some (VJson (JString c)).
Proof.
  intros Ht. unfold color_of, or_else, member. rewrite Ht.
  by rewrite (EVENT_TYPE_COLORS_truthy t c Ht).
Qed.

(** A name that [Object.prototype] defines is not replaced by the
    fallback. *)
Lemma color_of_inherited (t : string) (v : value) :
  EVENT_TYPE_COLORS !! t = None → Object_prototype !! t = Some v →
  color_of t = Some v.
Proof.
  intros Ht Hv. unfold color_of, or_else, member. rewrite Ht, Hv.
  by rewrite (Object_prototype_truthy t v Hv).
Qed.

(** Any other name gets the colour of [other]. *)
Lemma color_of_fallback (t : string) :
  EVENT_TYPE_COLORS !! t = None → Object_prototype !! t = None →
  color_of t = Some (VJson (JString "#6B7280")).
Proof.
  intros Ht Hv. unfold color_of, or_else, member. by rewrite Ht, Hv.
Qed.

(** The keys of the table are the seven categories of the form. *)
Lemma EVENT_TYPE_COLORS_keys (k : string) :
  is_Some (EVENT_TYPE_COLORS !! k) ↔ ∃ t : EventType, k = EventType_key t.
Proof.
  split.
  - intros [c Hc]. apply elem_of_list_to_map_2 in Hc.
    repeat (apply elem_of_cons in Hc as [[= -> _]|Hc];
            [first [ by exists lecture | by exists tutorial | by exists club
                   | by exists social | by exists exam | by exists assignment
                   | by exists other ]|]).
    by apply elem_of_nil in Hc.
  - intros [t ->]. destruct t; by eexists.
Qed.


(** ** What crosses the wire, and what the store keeps *)

Section wire.
Context `{Platform}.

Lemma property_JSON_stringify (o : object) (k : string) :
  property (JSON_stringify o) k = o !! k ≫= stringify_value.
Proof. apply lookup_omap. Qed.

Lemma spread_JSON_stringify (o : object) (k : string) :
  spread (JSON_stringify o) !! k = o !! k ≫= stringify_value.
Proof. apply lookup_omap. Qed.

Lemma stored_event_start (data : json) :
  stored_event data !! "start" = Some (VDate (newDate (property data "start"))).
Proof. unfold stored_event. rewrite lookup_insert_ne by done. apply lookup_insert_eq. Qed.

Lemma stored_event_end (data : json) :
  stored_event data !! "end" = Some (VDate (newDate (property data "end"))).
Proof. apply lookup_insert_eq. Qed.

Lemma stored_event_other (data : json) (k : string) :
  k ≠ "start" → k ≠ "end" →
  stored_event data !! k = VJson <$> spread data !! k.
Proof.
  intros Hs He. unfold stored_event.
  rewrite !lookup_insert_ne by done. apply lookup_fmap.
Qed.

Lemma stored_event_dated (data : json) : dated (stored_event data).
Proof. eexists _, _. by rewrite stored_event_start, stored_event_end. Qed.

(** A named property of the proposal, other than the three that the
    handler sets, reaches the store's handler as it is. *)
Lemma forwarded_property (eventData : json) (t k : string) :
  named k = true → set_by_handler k = false →
  property (JSON_stringify (enhancedEventData eventData t)) k = property eventData k.
Proof.
  intros Hn Hk. rewrite property_JSON_stringify, enhancedEventData_other by done.
  rewrite spread_named by done. by destruct (property eventData k).
Qed.

(** ** The handlers, step by step *)

Lemma POST_events_object (m : gmap string json) (w : world) :
  Events.POST (JObject m) w
  = (inl (Response 200 {[ "status" := VJson (JString "ok") ]}),
     World (EVENTS w ++ [stored_event (JObject m)]) (upstream_log w)).
Proof. reflexivity. Qed.

(** Unfolds a run of the handler up to the answer of the completion
    service. *)
Ltac run_POST env req :=
  unfold OpenAI.POST, mbind, handler_mbind, handler_bind, chat_completions_create;
  fold (sent env req).

Lemma POST_openai_rejected env req w :
  completions_create env (sent env req) = None →
  OpenAI.POST env req w = (inr APIError, called env req w).
Proof.
  intros Hc. run_POST env req. by rewrite Hc.
Qed.

Lemma POST_openai_no_choice env req w chat :
  completions_create env (sent env req) = Some chat →
  choices chat !! 0%nat = None →
  OpenAI.POST env req w = (inr TypeError, called env req w).
Proof.
  intros Hc H0. run_POST env req. by rewrite Hc, H0.
Qed.

Lemma POST_openai_no_tool_call env req w chat first :
  completions_create env (sent env req) = Some chat →
  choices chat !! 0%nat = Some first →
  first_tool_call first = None →
  OpenAI.POST env req w
  = (inl (Response 400 {[ "error" := VJson (JString "No function call") ]}),
     called env req w).
Proof.
  intros Hc H0 Ht. run_POST env req. rewrite Hc, H0. simpl. by rewrite Ht.
Qed.

Lemma POST_openai_malformed env req w chat first toolCall :
  completions_create env (sent env req) = Some chat →
  choices chat !! 0%nat = Some first →
  first_tool_call first = Some toolCall →
  JSON_parse (string_or (arguments (function toolCall)) "{}") = None →
  OpenAI.POST env req w = (inr SyntaxError, called env req w).
Proof.
  intros Hc H0 Ht Hp. run_POST env req. rewrite Hc, H0. simpl. rewrite Ht.
  simpl. by rewrite Hp.
Qed.

Lemma POST_openai_proposal env req w chat first toolCall eventData :
  completions_create env (sent env req) = Some chat →
  choices chat !! 0%nat = Some first →
  first_tool_call first = Some toolCall →
  JSON_parse (string_or (arguments (function toolCall)) "{}") = Some eventData →
  OpenAI.POST env req w
  = match events_route env with
    | Delivered =>
        (inl (Response 200 (enhancedEventData eventData (default "other" (eventType req)))),
         forwarded env req eventData w)
    | Answered _ =>
        (inl (Response 200 (enhancedEventData eventData (default "other" (eventType req)))),
         called env req w)
    | Unreachable => (inr FetchFailed, called env req w)
    end.
Proof.
  intros Hc H0 Ht Hp. run_POST env req. rewrite Hc, H0. simpl. rewrite Ht.
  simpl. rewrite Hp. simpl. unfold fetch_events.
  destruct (events_route env); reflexivity.
Qed.

End wire.

Section normalizer.
Context `{Platform}.

Lemma POST_openai_answered env req w eventData :
  proposes env req eventData →
  events_route env ≠ Unreachable →
  ∃ w', OpenAI.POST env req w
        = (inl (Response 200 (enhancedEventData eventData (default "other" (eventType req)))), w')
        ∧ upstream_log w' = (upstream_log w ++ [sent env req])%list.
Proof.
  intros (chat & first & toolCall & Hc & H0 & Ht & Hp) Hr.
  rewrite (POST_openai_proposal env req w chat first toolCall eventData) by done.
  destruct (events_route env); [eexists; split; reflexivity .. | done].
Qed.

Lemma append_assoc (a b c : string) : (a ++ b) ++ c = a ++ b ++ c.
Proof.
  induction a as [|x a IH]; [reflexivity|].
  change (String x ((a ++ b) ++ c) = String x (a ++ b ++ c)). by rewrite IH.
Qed.

Lemma contextualPrompt_guidance (p t d : string) :
  ∃ before after, contextualPrompt p t d = before ++ duration_guidance ++ after.
Proof.
  unfold contextualPrompt.
  exists (nl ++ "Create a calendar event from this description: " ++ quote ++ p ++ quote ++
          nl ++ nl ++ "Event context: This is a " ++ t ++ " event." ++
          nl ++ nl ++ "Additional guidelines:" ++ nl).
  eexists. rewrite !append_assoc. reflexivity.
Qed.

(** C1, as amended.  For every proposal, the event that [POST] returns has
    the [start] and the [end] of the proposal as they are: no [end] when the
    proposal has none, and no duration is ever added.  The default durations
    are guidance in the prompt that is sent to the completion service. *)
Theorem C1_end_is_the_proposals env req w eventData :
  proposes env req eventData →
  events_route env ≠ Unreachable →
  ∃ event w',
    OpenAI.POST env req w = (inl (Response 200 event), w')
    ∧ event !! "start" = VJson <$> property eventData "start"
    ∧ event !! "end" = VJson <$> property eventData "end"
    ∧ ∃ before after,
        last (upstream_log w') = Some (before ++ duration_guidance ++ after).
Proof.
  intros Hp Hr.
  destruct (POST_openai_answered env req w eventData Hp Hr) as (w' & Hrun & Hlog).
  eexists _, w'. split; [exact Hrun|].
  rewrite !enhancedEventData_other, !spread_named by reflexivity.
  split; [done|]. split; [done|].
  destruct (contextualPrompt_guidance (prompt req) (default "other" (eventType req)) (today env))
    as (before & after & Hg).
  exists before, after. rewrite Hlog, last_snoc. unfold sent. by rewrite Hg.
Qed.

End normalizer.

Lemma coffee_proposed :
  @proposes reference_platform (answering (tool_call_with (Some coffee_proposal)) Delivered)
    coffee_request coffee_data.
Proof. do 3 eexists. repeat split; vm_compute; reflexivity. Defined.

(** The scenario of the coffee with Sam: the event has the [start] of the
    proposal and, like the proposal, no [end]. *)
Lemma C1_end_is_the_proposals_witness :
  ∃ event w',
    @OpenAI.POST reference_platform
      (answering (tool_call_with (Some coffee_proposal)) Delivered) coffee_request empty_world
    = (inl (Response 200 event), w')
    ∧ event !! "start" = Some (VJson (JString "2025-07-30T15:00:00Z"))
    ∧ event !! "end" = None
    ∧ ∃ before after,
        last (upstream_log w') = Some (before ++ duration_guidance ++ after).
Proof.
  apply (C1_end_is_the_proposals (H := reference_platform) _ _ empty_world _ coffee_proposed).
  discriminate.
Defined.

(** C1 as stated fails on the end-to-end scenario: the proposal has no
    [end], the category is [social], and the event that is returned has no
    [end] either, where the claim expects 15:30. *)
Lemma C1_counterexample :
  ∃ event w',
    @OpenAI.POST reference_platform
      (answering (tool_call_with (Some coffee_proposal)) Delivered) coffee_request empty_world
    = (inl (Response 200 event), w')
    ∧ event !! "start" = Some (VJson (JString "2025-07-30T15:00:00Z"))
    ∧ event !! "end" = None
    ∧ ∃ stored, EVENTS w' = [stored] ∧ stored !! "end" = Some (VDate None).
Proof.
  eexists _, _. split; [vm_compute; reflexivity|].
  split; [vm_compute; reflexivity|]. split; [vm_compute; reflexivity|].
  eexists. split; vm_compute; reflexivity.
Qed.

Section submission.
Context `{Platform}.

(** C2, as amended.  When the text of the form is empty after trimming,
    [handleSubmit] returns before any request is made: the form and the
    server are as they were, so the completion service has not been called
    and nothing has been stored. *)
Theorem C2_blank_input_is_not_submitted env (f : form) (w : world) :
  trim (input f) = "" →
  handleSubmit env f w = (f, w).
Proof. intros Hb. unfold handleSubmit. by rewrite Hb. Qed.

(** C3, as amended.  When the completion carries no function call, no
    event is appended: the store and what [GET] lists are what they were.
    [POST] answers 400 with [{ error: "No function call" }] when the
    completion has a first choice, and throws [TypeError] on reading it when
    the completion has no choice at all. *)
Theorem C3_no_function_call env req w chat :
  completions_create env (sent env req) = Some chat →
  (∀ first, choices chat !! 0%nat = Some first → first_tool_call first = None) →
  ∃ out w',
    OpenAI.POST env req w = (out, w')
    ∧ EVENTS w' = EVENTS w
    ∧ fst (Events.GET w') = fst (Events.GET w)
    ∧ (is_Some (choices chat !! 0%nat) →
       out = inl (Response 400 {[ "error" := VJson (JString "No function call") ]}))
    ∧ (choices chat !! 0%nat = None → out = inr TypeError).
Proof.
  intros Hc Hno. destruct (choices chat !! 0%nat) as [first|] eqn:H0.
  - rewrite (POST_openai_no_tool_call env req w chat first) by auto.
    eexists _, _. split; [reflexivity|]. do 2 (split; [reflexivity|]).
    split; [done|]. discriminate.
  - rewrite (POST_openai_no_choice env req w chat) by done.
    eexists _, _. split; [reflexivity|]. do 2 (split; [reflexivity|]).
    split; [|done]. by intros [? ?].
Qed.

(** C4, evaluated at the event type [constructor].  The table has no such
    property, but the object literal inherits one from [Object.prototype],
    the function [Object]; it is truthy, so the fallback to [other] is not
    taken.  The colour of the event that [POST] builds is that function, and
    in what is sent to the caller and in what the store keeps there is no
    colour at all. *)
Theorem C4_constructor_has_no_color env req w eventData :
  eventType req = Some "constructor" →
  proposes env req eventData →
  events_route env = Delivered →
  ∃ event stored w',
    OpenAI.POST env req w = (inl (Response 200 event), w')
    ∧ EVENT_TYPE_COLORS !! "constructor" = None
    ∧ event !! "color" = Some (VFunction "Object")
    ∧ property (JSON_stringify event) "color" = None
    ∧ EVENTS w' = (EVENTS w ++ [stored])%list
    ∧ stored !! "color" = None.
Proof.
  intros Ht (chat & first & toolCall & Hc & H0 & Htc & Hp) Hr.
  rewrite (POST_openai_proposal env req w chat first toolCall eventData) by done.
  rewrite Hr, Ht. change (default "other" (Some "constructor")) with "constructor".
  assert (enhancedEventData eventData "constructor" !! "color" = Some (VFunction "Object")) as Hcol.
  { rewrite enhancedEventData_color. by apply color_of_inherited. }
  exists (enhancedEventData eventData "constructor"),
         (stored_event (JSON_stringify (enhancedEventData eventData "constructor"))),
         (forwarded env req eventData w).
  split; [reflexivity|]. split; [reflexivity|]. split; [exact Hcol|].
  split; [by rewrite property_JSON_stringify, Hcol|].
  split; [unfold forwarded; by rewrite Ht|].
  rewrite stored_event_other, spread_JSON_stringify, Hcol by done. reflexivity.
Qed.

(** C5.  When the proposal is an object with a [start] earlier than its
    [end] and the event type is one of the seven of the table, the event
    that [POST] returns has that event type, the colour that the table gives
    it, and the [start] and [end] of the proposal. *)
Theorem C5_valid_proposal_is_enhanced env req w eventData category color start_ end_ ts te :
  trim (prompt req) ≠ "" →
  eventType req = Some category →
  EVENT_TYPE_COLORS !! category = Some color →
  proposes env req eventData →
  property eventData "start" = Some start_ →
  property eventData "end" = Some end_ →
  Date_of start_ = Some ts →
  Date_of end_ = Some te →
  (ts < te)%Z →
  events_route env ≠ Unreachable →
  ∃ event w',
    OpenAI.POST env req w = (inl (Response 200 event), w')
    ∧ event !! "eventType" = Some (VJson (JString category))
    ∧ event !! "color" = Some (VJson (JString color))
    ∧ event !! "start" = Some (VJson start_)
    ∧ event !! "end" = Some (VJson end_).
Proof.
  intros _ Hcat Hcol Hp Hs He _ _ _ Hr.
  destruct (POST_openai_answered env req w eventData Hp Hr) as (w' & Hrun & _).
  eexists _, w'. split; [exact Hrun|]. rewrite Hcat. simpl.
  rewrite enhancedEventData_eventType, enhancedEventData_color.
  rewrite !enhancedEventData_other, !spread_named by reflexivity.
  rewrite Hs, He. by rewrite (color_of_own category color Hcol).
Qed.

End submission.

(** A form that holds two spaces. *)
Lemma C2_blank_input_is_not_submitted_witness :
  @trim reference_platform "  " = ""
  ∧ @handleSubmit reference_platform
      (answering (tool_call_with (Some lecture_proposal)) Delivered)
      (Form "  " false social false) empty_world
    = (Form "  " false social false, empty_world).
Proof.
  split; [reflexivity|].
  apply (C2_blank_input_is_not_submitted (H := reference_platform)). reflexivity.
Defined.

(** C2 as stated fails on the route: [POST] does not look at the prompt.
    With the empty prompt it calls the completion service once, and goes on
    to return and to store an event. *)
Lemma C2_counterexample :
  @trim reference_platform "" = ""
  ∧ ∃ event w',
      @OpenAI.POST reference_platform
        (answering (tool_call_with (Some lecture_proposal)) Delivered)
        {| prompt := ""; eventType := Some "lecture" |} empty_world
      = (inl (Response 200 event), w')
      ∧ length (upstream_log w') = 1%nat
      ∧ length (EVENTS w') = 1%nat.
Proof.
  split; [reflexivity|].
  eexists _, _. split; [vm_compute; reflexivity|]. split; reflexivity.
Qed.

(** A completion whose message has no [tool_calls], on the empty store. *)
Lemma C3_no_function_call_witness :
  ∃ out w',
    @OpenAI.POST reference_platform (answering no_tool_call Delivered) lecture_request empty_world
    = (out, w')
    ∧ EVENTS w' = []
    ∧ fst (Events.GET w') = inl (Response 200 [])
    ∧ (is_Some (choices no_tool_call !! 0%nat) →
       out = inl (Response 400 {[ "error" := VJson (JString "No function call") ]}))
    ∧ (choices no_tool_call !! 0%nat = None → out = inr TypeError).
Proof.
  apply (C3_no_function_call (H := reference_platform)
           (answering no_tool_call Delivered) lecture_request empty_world no_tool_call);
    [reflexivity|].
  intros first [= <-]. reflexivity.
Defined.

(** C3 as stated fails on a completion without choices: it contains no
    function call, and [POST] throws [TypeError] where the claim expects the
    answer 400. *)
Lemma C3_counterexample :
  choices no_choices = []
  ∧ ∃ w',
      @OpenAI.POST reference_platform (answering no_choices Delivered) lecture_request
        empty_world
      = (inr TypeError, w').
Proof. split; [reflexivity|]. eexists. reflexivity. Qed.

(** C5 as stated fails when the request that forwards the event to the
    store gets no answer: the prompt is not blank, the category is
    [lecture], the proposal is the lecture from 9:00 to 10:00, and [POST]
    throws instead of returning the event. *)
Lemma C5_counterexample :
  @trim reference_platform (prompt lecture_request) ≠ ""
  ∧ @proposes reference_platform
      (answering (tool_call_with (Some lecture_proposal)) Unreachable)
      lecture_request lecture_data
  ∧ @Date_of reference_platform (JString "2025-07-29T09:00:00Z") = Some 1753779600000%Z
  ∧ @Date_of reference_platform (JString "2025-07-29T10:00:00Z") = Some 1753783200000%Z
  ∧ ∃ w',
      @OpenAI.POST reference_platform
        (answering (tool_call_with (Some lecture_proposal)) Unreachable) lecture_request
        empty_world
      = (inr FetchFailed, w').
Proof.
  split; [discriminate|]. split.
  { do 3 eexists. repeat split; vm_compute; reflexivity. }
  split; [reflexivity|]. split; [reflexivity|].
  eexists. vm_compute. reflexivity.
Qed.

Lemma constructor_proposed :
  @proposes reference_platform (answering (tool_call_with (Some lecture_proposal)) Delivered)
    constructor_request lecture_data.
Proof. do 3 eexists. repeat split; vm_compute; reflexivity. Defined.

(** The lecture with the event type [constructor], on the empty store. *)
Lemma C4_constructor_has_no_color_witness :
  ∃ event stored w',
    @OpenAI.POST reference_platform
      (answering (tool_call_with (Some lecture_proposal)) Delivered) constructor_request
      empty_world
    = (inl (Response 200 event), w')
    ∧ EVENT_TYPE_COLORS !! "constructor" = None
    ∧ event !! "color" = Some (VFunction "Object")
    ∧ property (@JSON_stringify reference_platform event) "color" = None
    ∧ EVENTS w' = [stored]
    ∧ stored !! "color" = None.
Proof.
  apply (C4_constructor_has_no_color (H := reference_platform) _ _ empty_world lecture_data);
    [reflexivity | apply constructor_proposed | reflexivity].
Defined.

Lemma lecture_proposed (route : delivery) :
  @proposes reference_platform (answering (tool_call_with (Some lecture_proposal)) route)
    lecture_request lecture_data.
Proof. do 3 eexists. repeat split; vm_compute; reflexivity. Defined.

(** The lecture from 9:00 to 10:00. *)
Lemma C5_valid_proposal_is_enhanced_witness :
  ∃ event w',
    @OpenAI.POST reference_platform
      (answering (tool_call_with (Some lecture_proposal)) Delivered) lecture_request empty_world
    = (inl (Response 200 event), w')
    ∧ event !! "eventType" = Some (VJson (JString "lecture"))
    ∧ event !! "color" = Some (VJson (JString "#3B82F6"))
    ∧ event !! "start" = Some (VJson (JString "2025-07-29T09:00:00Z"))
    ∧ event !! "end" = Some (VJson (JString "2025-07-29T10:00:00Z")).
Proof.
  apply (C5_valid_proposal_is_enhanced (H := reference_platform)
           _ _ empty_world lecture_data "lecture" "#3B82F6" _ _
           1753779600000%Z 1753783200000%Z);
    [ discriminate | reflexivity | reflexivity | apply lecture_proposed
    | reflexivity | reflexivity | reflexivity | reflexivity | reflexivity | discriminate ].
Defined.

Section store.
Context `{Platform}.

(** A submission leaves the store as it is, or appends the one event made
    of the proposal. *)
Lemma submit_cases env req w :
  EVENTS (perform w (Submit env req)) = EVENTS w
  ∨ ∃ eventData,
      proposes env req eventData
      ∧ EVENTS (perform w (Submit env req))
        = (EVENTS w ++ [stored_event (JSON_stringify
                          (enhancedEventData eventData (default "other" (eventType req))))])%list.
Proof.
  simpl.
  destruct (completions_create env (sent env req)) as [chat|] eqn:Hc;
    [|left; by rewrite POST_openai_rejected].
  destruct (choices chat !! 0%nat) as [first|] eqn:H0;
    [|left; by rewrite (POST_openai_no_choice env req w chat)].
  destruct (first_tool_call first) as [toolCall|] eqn:Ht;
    [|left; by rewrite (POST_openai_no_tool_call env req w chat first)].
  destruct (JSON_parse (string_or (arguments (function toolCall)) "{}")) as [eventData|] eqn:Hp;
    [|left; by rewrite (POST_openai_malformed env req w chat first toolCall)].
  rewrite (POST_openai_proposal env req w chat first toolCall eventData) by done.
  destruct (events_route env); [|by left..].
  right. exists eventData. split; [|reflexivity]. by exists chat, first, toolCall.
Qed.

(** A posted event is appended, unless the body is [null]. *)
Lemma create_cases data w :
  EVENTS (perform w (Create data)) = EVENTS w
  ∨ EVENTS (perform w (Create data)) = (EVENTS w ++ [stored_event data])%list.
Proof. destruct data; (by left) || (by right). Qed.

(** The store keeps the dates of what it is sent. *)
Lemma stored_event_ordered (data : json) :
  ordered_proposal data → ordered (stored_event data).
Proof.
  intros (ts & te & Hs & He & Hle). exists ts, te.
  by rewrite stored_event_start, stored_event_end, Hs, He.
Qed.

(** The dates of a proposal are those of the enhanced event on the wire. *)
Lemma enhanced_proposal_ordered (eventData : json) (t : string) :
  ordered_proposal eventData →
  ordered_proposal (JSON_stringify (enhancedEventData eventData t)).
Proof.
  intros (ts & te & Hs & He & Hle). exists ts, te.
  by rewrite !forwarded_property.
Qed.

(** C6, as amended.  Neither route compares [start] with [end]: the store
    keeps the dates of what it is sent, and the normaliser sends the dates of
    the proposal.  So as long as every proposal that the completion service
    makes, and every event posted to the store directly, has valid dates with
    [end] not before [start], the events of the store have them too, in
    every state that a run of requests reaches. *)
Theorem C6_order_comes_from_the_proposals (l : list action) (w : world) :
  (∀ env req eventData,
     Submit env req ∈ l → proposes env req eventData → ordered_proposal eventData) →
  (∀ data, Create data ∈ l → ordered_proposal data) →
  Forall ordered (EVENTS w) →
  Forall ordered (EVENTS (run w l)).
Proof.
  revert w. induction l as [|a l IH]; intros w Hs Hc Hw; [exact Hw|].
  simpl. apply IH.
  - intros env req d Hin. apply Hs. by right.
  - intros d Hin. apply Hc. by right.
  - destruct a as [env req|data].
    + destruct (submit_cases env req w) as [->|(d & Hd & ->)]; [exact Hw|].
      apply Forall_app. split; [exact Hw|].
      apply Forall_singleton, stored_event_ordered, enhanced_proposal_ordered.
      apply (Hs env req d); [by left | exact Hd].
    + destruct (create_cases data w) as [->| ->]; [exact Hw|].
      apply Forall_app. split; [exact Hw|].
      apply Forall_singleton, stored_event_ordered, Hc. by left.
Qed.



End store.


(** C6 as stated fails: the completion service proposes a lecture from 9:00
    to 8:00, and the store, empty before, holds an event that ends an hour
    before it starts. *)
Lemma C6_counterexample :
  ∃ stored ts te,
    EVENTS (@run reference_platform empty_world
              [Submit (answering (tool_call_with (Some backwards_proposal)) Delivered)
                      lecture_request])
    = [stored]
    ∧ stored !! "start" = Some (VDate (Some ts))
    ∧ stored !! "end" = Some (VDate (Some te))
    ∧ (te < ts)%Z.
Proof.
  eexists _, 1753779600000%Z, 1753776000000%Z.
  split; [vm_compute; reflexivity|]. split; [vm_compute; reflexivity|].
  split; [vm_compute; reflexivity|]. reflexivity.
Qed.

(** A run of three requests: the lecture, a completion without tool call,
    and the lecture posted to the store directly. *)
Lemma C6_order_comes_from_the_proposals_witness :
  Forall ordered
    (EVENTS (@run reference_platform empty_world
               [Submit (answering (tool_call_with (Some lecture_proposal)) Delivered)
                       lecture_request;
                Submit (answering no_tool_call Delivered) coffee_request;
                Create lecture_data])).
Proof.
  apply (C6_order_comes_from_the_proposals (H := reference_platform)).
  - intros env req d Hin (chat & first & toolCall & Hc & H0 & Ht & Hp).
    apply elem_of_cons in Hin as [[= -> ->]|Hin].
    + injection Hc as <-. injection H0 as <-. injection Ht as <-.
      vm_compute in Hp. injection Hp as <-.
      exists 1753779600000%Z, 1753783200000%Z.
      split; [reflexivity|]. split; [reflexivity|]. discriminate.
    + apply elem_of_cons in Hin as [[= -> ->]|Hin].
      * injection Hc as <-. injection H0 as <-. discriminate Ht.
      * apply elem_of_cons in Hin as [[=]|Hin]. by apply elem_of_nil in Hin.
  - intros data Hin.
    apply elem_of_cons in Hin as [[=]|Hin].
    apply elem_of_cons in Hin as [[=]|Hin].
    apply elem_of_cons in Hin as [[= ->]|Hin]; [|by apply elem_of_nil in Hin].
    exists 1753779600000%Z, 1753783200000%Z.
    split; [reflexivity|]. split; [reflexivity|]. discriminate.
  - apply Forall_nil_2.
Defined.

Section failures.
Context `{Platform}.

(** C8, as amended.  When the arguments of the function call are a
    non-empty text that [JSON.parse] rejects, [POST] ends with the
    [SyntaxError] that [JSON.parse] throws, which nothing catches; no event
    has been made and the store is as it was. *)
Theorem C8_malformed_arguments env req w chat first toolCall text :
  completions_create env (sent env req) = Some chat →
  choices chat !! 0%nat = Some first →
  first_tool_call first = Some toolCall →
  arguments (function toolCall) = Some text →
  text ≠ "" →
  JSON_parse text = None →
  ∃ w', OpenAI.POST env req w = (inr SyntaxError, w') ∧ EVENTS w' = EVENTS w.
Proof.
  intros Hc H0 Ht Ha Hne Hp. exists (called env req w).
  rewrite (POST_openai_malformed env req w chat first toolCall); [done..|].
  rewrite Ha. simpl. apply String.eqb_neq in Hne. by rewrite Hne.
Qed.


(** C10.  When the arguments of the function call are absent or empty,
    [POST] parses the text of the empty object in their place and succeeds.
    The event it returns has no [title], [start] or [end]; the store
    appends an event with no [title] whose [start] and [end] are invalid
    dates. *)
Theorem C10_empty_arguments env req w chat first toolCall :
  JSON_parse "{}" = Some (JObject ∅) →
  completions_create env (sent env req) = Some chat →
  choices chat !! 0%nat = Some first →
  first_tool_call first = Some toolCall →
  arguments (function toolCall) = None ∨ arguments (function toolCall) = Some "" →
  events_route env = Delivered →
  ∃ event stored w',
    OpenAI.POST env req w = (inl (Response 200 event), w')
    ∧ event !! "title" = None ∧ event !! "start" = None ∧ event !! "end" = None
    ∧ EVENTS w' = (EVENTS w ++ [stored])%list
    ∧ stored !! "title" = None
    ∧ stored !! "start" = Some (VDate None)
    ∧ stored !! "end" = Some (VDate None).
Proof.
  intros Hobj Hc H0 Ht Ha Hr.
  assert (JSON_parse (string_or (arguments (function toolCall)) "{}") = Some (JObject ∅)) as Hp.
  { by destruct Ha as [-> | ->]. }
  rewrite (POST_openai_proposal env req w chat first toolCall (JObject ∅)) by done.
  rewrite Hr.
  exists (enhancedEventData (JObject ∅) (default "other" (eventType req))),
         (stored_event (JSON_stringify
            (enhancedEventData (JObject ∅) (default "other" (eventType req))))),
         (forwarded env req (JObject ∅) w).
  split; [reflexivity|].
  rewrite !enhancedEventData_other by reflexivity. simpl.
  rewrite !lookup_empty. do 3 (split; [reflexivity|]).
  split; [reflexivity|].
  rewrite stored_event_start, stored_event_end, stored_event_other by done.
  rewrite !forwarded_property by reflexivity.
  rewrite spread_JSON_stringify, enhancedEventData_other by reflexivity.
  simpl. by rewrite lookup_empty.
Qed.

End failures.

(** Arguments with an unquoted key and no closing brace. *)
Lemma C8_malformed_arguments_witness :
  ∃ w',
    @OpenAI.POST reference_platform
      (answering (tool_call_with (Some "{title: Math lecture")) Delivered)
      lecture_request empty_world
    = (inr SyntaxError, w')
    ∧ EVENTS w' = [].
Proof.
  apply (C8_malformed_arguments (H := reference_platform)
           (answering (tool_call_with (Some "{title: Math lecture")) Delivered)
           lecture_request empty_world
           (tool_call_with (Some "{title: Math lecture"))
           {| message := {| tool_calls :=
                Some [ {| function := {| arguments := Some "{title: Math lecture" |} |} ] |} |}
           {| function := {| arguments := Some "{title: Math lecture" |} |}
           "{title: Math lecture");
    [reflexivity | reflexivity | reflexivity | reflexivity | discriminate | reflexivity].
Defined.

(** C8 as stated fails on the empty text: [JSON.parse] rejects it, but the
    handler parses the text of the empty object in its place, returns an
    event and stores one. *)
Lemma C8_counterexample :
  @JSON_parse reference_platform "" = None
  ∧ ∃ event w',
      @OpenAI.POST reference_platform
        (answering (tool_call_with (Some "")) Delivered) lecture_request empty_world
      = (inl (Response 200 event), w')
      ∧ length (EVENTS w') = 1%nat.
Proof.
  split; [reflexivity|].
  eexists _, _. split; [vm_compute; reflexivity|]. reflexivity.
Qed.



(** A function call without arguments. *)
Lemma C10_empty_arguments_witness :
  ∃ event stored w',
    @OpenAI.POST reference_platform
      (answering (tool_call_with None) Delivered) lecture_request empty_world
    = (inl (Response 200 event), w')
    ∧ event !! "title" = None ∧ event !! "start" = None ∧ event !! "end" = None
    ∧ EVENTS w' = [stored]
    ∧ stored !! "title" = None
    ∧ stored !! "start" = Some (VDate None)
    ∧ stored !! "end" = Some (VDate None).
Proof.
  apply (C10_empty_arguments (H := reference_platform)
           (answering (tool_call_with None) Delivered) lecture_request empty_world
           (tool_call_with None)
           {| message := {| tool_calls := Some [ {| function := {| arguments := None |} |} ] |} |}
           {| function := {| arguments := None |} |});
    [reflexivity | reflexivity | reflexivity | reflexivity | by left | reflexivity].
Defined.

(** * Further properties of the routes *)

Section routes.
Context `{Platform}.

(** What a request to the route does to the state of the server, in each
    of its outcomes. *)
Lemma POST_openai_cases env req w :
  (∃ e, OpenAI.POST env req w = (inr e, called env req w))
  ∨ OpenAI.POST env req w
    = (inl (Response 400 {[ "error" := VJson (JString "No function call") ]}),
       called env req w)
  ∨ ∃ eventData,
      proposes env req eventData
      ∧ (OpenAI.POST env req w
         = (inl (Response 200 (enhancedEventData eventData (default "other" (eventType req)))),
            called env req w)
         ∨ OpenAI.POST env req w
           = (inl (Response 200 (enhancedEventData eventData (default "other" (eventType req)))),
              forwarded env req eventData w)).
Proof.
  destruct (completions_create env (sent env req)) as [chat|] eqn:Hc;
    [|left; eexists; by apply POST_openai_rejected].
  destruct (choices chat !! 0%nat) as [first|] eqn:H0;
    [|left; eexists; by apply (POST_openai_no_choice env req w chat)].
  destruct (first_tool_call first) as [toolCall|] eqn:Ht;
    [|right; left; by apply (POST_openai_no_tool_call env req w chat first)].
  destruct (JSON_parse (string_or (arguments (function toolCall)) "{}")) as [eventData|] eqn:Hp;
    [|left; eexists; by apply (POST_openai_malformed env req w chat first toolCall)].
  rewrite (POST_openai_proposal env req w chat first toolCall eventData) by done.
  destruct (events_route env).
  - right; right. exists eventData. split; [by exists chat, first, toolCall | by right].
  - right; right. exists eventData. split; [by exists chat, first, toolCall | by left].
  - left. by eexists.
Qed.

Lemma POST_openai_log env req w :
  upstream_log (snd (OpenAI.POST env req w)) = (upstream_log w ++ [sent env req])%list.
Proof.
  destruct (POST_openai_cases env req w) as [[e ->]|[->|(d & _ & [-> | ->])]]; reflexivity.
Qed.

(** X1.  Every request whose body has the shape that the form sends (a
    string [prompt], and an [eventType] that is a string or left out) makes
    exactly one call to the completion service, with the contextual prompt,
    whatever the outcome: the handler checks nothing of such a body before
    the call, and makes no second attempt after it. *)
Theorem X1_one_call_per_request env req w :
  upstream_log (snd (OpenAI.POST env req w)) = (upstream_log w ++ [sent env req])%list.
Proof. apply POST_openai_log. Qed.

(** X2.  A request to the route leaves the store as it is or appends one
    event to it, and it appends only when the caller is answered with status
    200: with an exception or with the status 400, nothing has been stored. *)
Theorem X2_stored_only_with_200 env req w :
  EVENTS (snd (OpenAI.POST env req w)) = EVENTS w
  ∨ ∃ event stored,
      fst (OpenAI.POST env req w) = inl (Response 200 event)
      ∧ EVENTS (snd (OpenAI.POST env req w)) = (EVENTS w ++ [stored])%list.
Proof.
  destruct (POST_openai_cases env req w) as [[e ->]|[->|(d & _ & [-> | ->])]];
    [by left .. |].
  right. by eexists _, _.
Qed.

(** X3.  For every event type that is not the name of a property of
    [Object.prototype], the colour of the enhanced event is a colour of the
    table: the one of the event type when the table has it, the one of
    [other] when it has not. *)
Theorem X3_color_of_other_names (eventData : json) (t : string) :
  Object_prototype !! t = None →
  ∃ c, enhancedEventData eventData t !! "color" = Some (VJson (JString c))
       ∧ (EVENT_TYPE_COLORS !! t = Some c
          ∨ EVENT_TYPE_COLORS !! t = None ∧ EVENT_TYPE_COLORS !! "other" = Some c).
Proof.
  intros Hp. rewrite enhancedEventData_color.
  destruct (EVENT_TYPE_COLORS !! t) as [c|] eqn:Ht.
  - exists c. split; [by apply color_of_own | by left].
  - exists "#6B7280". split; [by apply color_of_fallback | by right].
Qed.

(** X4.  A request that leaves [eventType] out is handled as one of type
    [other]: the prompt says so, and the event has the type, the resource
    and the colour of [other]. *)
Theorem X4_default_event_type env req w eventData :
  eventType req = None →
  proposes env req eventData →
  events_route env ≠ Unreachable →
  ∃ event w',
    OpenAI.POST env req w = (inl (Response 200 event), w')
    ∧ event !! "eventType" = Some (VJson (JString "other"))
    ∧ event !! "resource" = Some (VJson (JString "other"))
    ∧ event !! "color" = Some (VJson (JString "#6B7280"))
    ∧ ∃ before after,
        last (upstream_log w')
        = Some (before ++ "Event context: This is a other event." ++ after).
Proof.
  intros Hn Hp Hr.
  destruct (POST_openai_answered env req w eventData Hp Hr) as (w' & Hrun & Hlog).
  eexists _, w'. split; [exact Hrun|]. rewrite Hn. simpl.
  rewrite enhancedEventData_eventType, enhancedEventData_resource, enhancedEventData_color.
  do 3 (split; [reflexivity|]).
  rewrite Hlog, last_snoc. unfold sent, contextualPrompt. rewrite Hn. simpl.
  exists (nl ++ "Create a calendar event from this description: " ++ quote
          ++ prompt req ++ quote ++ nl ++ nl).
  eexists. rewrite !append_assoc. reflexivity.
Qed.


(** X6.  Every event of the store has a [start] and an [end] that are
    [Date] objects (valid or not), in every state that requests to the two
    routes reach: whatever is posted, the store makes dates of these two
    properties. *)
Theorem X6_stored_events_are_dated (l : list action) (w : world) :
  Forall dated (EVENTS w) → Forall dated (EVENTS (run w l)).
Proof.
  revert w. induction l as [|a l IH]; intros w Hw; [exact Hw|].
  simpl. apply IH. destruct a as [env req|data].
  - destruct (submit_cases env req w) as [->|(d & _ & ->)]; [exact Hw|].
    apply Forall_app. split; [exact Hw|]. apply Forall_singleton, stored_event_dated.
  - destruct (create_cases data w) as [->| ->]; [exact Hw|].
    apply Forall_app. split; [exact Hw|]. apply Forall_singleton, stored_event_dated.
Qed.

(** X7.  The store never shrinks and never changes an event it holds: after
    any run of requests to the two routes, the events that were there are
    still the first ones, in the same order. *)
Theorem X7_store_is_append_only (l : list action) (w : world) :
  ∃ added, EVENTS (run w l) = (EVENTS w ++ added)%list ∧ (length added ≤ length l)%nat.
Proof.
  revert w. induction l as [|a l IH]; intros w.
  - exists []. by rewrite app_nil_r.
  - simpl. destruct (IH (perform w a)) as (added & -> & Hlen).
    assert (∃ one, EVENTS (perform w a) = (EVENTS w ++ one)%list ∧ (length one ≤ 1)%nat)
      as (one & -> & Hone).
    { destruct a as [env req|data].
      - destruct (submit_cases env req w) as [->|(d & _ & ->)].
        + exists []. split; [by rewrite app_nil_r | simpl; lia].
        + eexists [_]. split; [reflexivity | simpl; lia].
      - destruct (create_cases data w) as [->| ->].
        + exists []. split; [by rewrite app_nil_r | simpl; lia].
        + eexists [_]. split; [reflexivity | simpl; lia]. }
    exists (one ++ added)%list. rewrite app_assoc. split; [done|].
    rewrite length_app. simpl. lia.
Qed.

End routes.

(** * Further properties of the form *)

Section form.
Context `{Platform}.

(** X8.  When the text is not blank, [handleSubmit] makes the route call
    the completion service exactly once, with the prompt made of the text
    and of the selected type.  When it has settled the form is never left
    loading, whatever the route did: either the success message is shown and
    the text is cleared, or no success is shown and the text is kept. *)
Theorem X8_form_after_submission env (f : form) (w : world) :
  trim (input f) ≠ "" →
  ∃ f' w',
    handleSubmit env f w = (f', w')
    ∧ upstream_log w' = (upstream_log w ++ [sent env (request_of f)])%list
    ∧ loading f' = false
    ∧ selectedType f' = selectedType f
    ∧ (showSuccess f' = true ∧ input f' = ""
       ∨ showSuccess f' = false ∧ input f' = input f).
Proof.
  intros Hb. apply String.eqb_neq in Hb. unfold handleSubmit. rewrite Hb.
  fold (request_of f).
  pose proof (POST_openai_log env (request_of f) w) as Hlog.
  destruct (OpenAI.POST env (request_of f) w) as [[r|e] w']; simpl in Hlog;
    eexists _, _; (split; [reflexivity|]); (split; [exact Hlog|]);
    (split; [reflexivity|]); (split; [reflexivity|]); [by left | by right].
Qed.

(** X9.  The form does not look at the status of the answer: when the
    first choice of the completion carries no function call, the route
    answers with the status 400 and nothing is stored, and the form shows
    the success message and clears the text all the same. *)
Theorem X9_success_shown_for_400 env (f : form) (w : world) chat first :
  trim (input f) ≠ "" →
  completions_create env (sent env (request_of f)) = Some chat →
  choices chat !! 0%nat = Some first →
  first_tool_call first = None →
  fst (OpenAI.POST env (request_of f) w)
  = inl (Response 400 {[ "error" := VJson (JString "No function call") ]})
  ∧ ∃ f' w',
      handleSubmit env f w = (f', w')
      ∧ showSuccess f' = true ∧ input f' = ""
      ∧ EVENTS w' = EVENTS w.
Proof.
  intros Hb Hc H0 Ht. apply String.eqb_neq in Hb. unfold handleSubmit. rewrite Hb.
  fold (request_of f).
  rewrite (POST_openai_no_tool_call env (request_of f) w chat first) by done.
  split; [reflexivity|]. by eexists _, _.
Qed.


End form.

(** * Properties of the earlier handler and form *)

Section earlier.
Context `{Platform}.


(** X12.  The earlier form in front of the earlier handler: when the
    arguments of the function call are a non-empty text that [JSON.parse]
    rejects, the handler throws, nothing is stored, and the form, which has
    no [try] around the request, is left loading with its text. *)
Theorem X12_earlier_form_left_loading env (f : AI_Input_first.form) (w : world)
    chat first toolCall text :
  trim (AI_Input_first.input f) ≠ "" →
  completions_create env (AI_Input_first.input f) = Some chat →
  choices chat !! 0%nat = Some first →
  first_tool_call first = Some toolCall →
  arguments (function toolCall) = Some text →
  text ≠ "" →
  JSON_parse text = None →
  ∃ w',
    AI_Input_first.handleSubmit (λ r, OpenAI_first.POST env (prompt r)) f w
    = (AI_Input_first.Form (AI_Input_first.input f) true, w')
    ∧ EVENTS w' = EVENTS w.
Proof.
  intros Hb Hc H0 Ht Ha Hne Hp. apply String.eqb_neq in Hb, Hne.
  unfold AI_Input_first.handleSubmit. rewrite Hb. simpl.
  unfold OpenAI_first.POST, mbind, handler_mbind, handler_bind, chat_completions_create.
  rewrite Hc, H0. simpl. rewrite Ht. simpl. rewrite Ha. simpl. rewrite Hne, Hp. simpl.
  by eexists.
Qed.

End earlier.

(** * Properties of the calendar component *)

Section calendar.
Context `{Platform} `{Numbers}.

(** X14.  [fetchEvents] reads the events in the property [events] of the
    answer, and the store's [GET] answers with the array itself, which has
    no such property: whatever the store holds, the component ends with no
    events (and not loading, with its filter). *)
Theorem X14_calendar_lists_nothing (s : Calendar.state) :
  (∀ l : list json,
     Calendar.fetchEvents (Some (JArray l)) s = Calendar.State [] (Calendar.filter s) false)
  ∧ (∀ w : world,
       Calendar.fetchEvents (Some (Calendar.listed w)) s
       = Calendar.State [] (Calendar.filter s) false).
Proof. split; reflexivity. Qed.






End calendar.

Section filters.

(** X17.  [toggleFilter] flips the presence of the type it is given and
    leaves every other type as it was, selected or not. *)
Theorem X17_toggleFilter_flips (eventType x : string) (prev : list string) :
  x ∈ Calendar.toggleFilter eventType prev
  ↔ (x = eventType ∧ eventType ∉ prev) ∨ (x ≠ eventType ∧ x ∈ prev).
Proof.
  unfold Calendar.toggleFilter. case_bool_decide as Hin.
  - rewrite list_elem_of_In, filter_In, <- list_elem_of_In.
    rewrite negb_true_iff, String.eqb_neq. split.
    + intros [Hx Hne]. by right.
    + intros [[_ Hnot]|[Hne Hx]]; done.
  - rewrite elem_of_app, list_elem_of_singleton. split.
    + intros [Hx| ->]; [right; split; [congruence|done] | by left].
    + intros [[-> _]|[_ Hx]]; [by right | by left].
Qed.

Lemma filter_out_absent (t : string) (l : list string) :
  t ∉ l → List.filter (λ type, negb (String.eqb type t)) l = l.
Proof.
  induction l as [|x l IH]; [done|]. intros Hnot.
  apply not_elem_of_cons in Hnot as [Hne Hnot]. simpl.
  assert (String.eqb x t = false) as -> by (apply String.eqb_neq; congruence).
  simpl. by rewrite IH.
Qed.

(** X18.  Toggling a type that is not selected, twice, gives the filter
    back as it was. *)
Theorem X18_toggleFilter_twice (eventType : string) (prev : list string) :
  eventType ∉ prev →
  Calendar.toggleFilter eventType (Calendar.toggleFilter eventType prev) = prev.
Proof.
  intros Hnot. unfold Calendar.toggleFilter at 2. rewrite bool_decide_eq_false_2 by done.
  unfold Calendar.toggleFilter. rewrite bool_decide_eq_true_2 by set_solver.
  rewrite List.filter_app, filter_out_absent by done. simpl.
  by rewrite String.eqb_refl, app_nil_r.
Qed.

(** X19.  With an empty filter the component shows every event.  With any
    other filter it shows the events whose [eventType] is a string of the
    filter, and no other: an event with no type, or a type that is not a
    string, is hidden by every filter. *)
Theorem X19_filteredEvents (s : Calendar.state) (e : object) :
  (Calendar.filter s = [] → Calendar.filteredEvents s = Calendar.events s)
  ∧ (Calendar.filter s ≠ [] →
     (e ∈ Calendar.filteredEvents s
      ↔ e ∈ Calendar.events s
        ∧ ∃ t, e !! "eventType" = Some (VJson (JString t)) ∧ t ∈ Calendar.filter s)).
Proof.
  unfold Calendar.filteredEvents. split.
  - intros ->. reflexivity.
  - intros Hne. destruct (Calendar.filter s) as [|t0 l0] eqn:Hf; [done|]. simpl.
    rewrite list_elem_of_In, filter_In, <- list_elem_of_In.
    unfold Calendar.includes. split.
    + intros [Hin Hinc]. split; [exact Hin|].
      destruct (e !! "eventType") as [[[| | |t| |]| | |]|]; try discriminate.
      exists t. split; [reflexivity|]. by apply bool_decide_eq_true in Hinc.
    + intros [Hin (t & -> & Ht)]. split; [exact Hin|]. by apply bool_decide_eq_true.
Qed.

Lemma is_type_once (ts : list string) (v : option value) :
  NoDup ts →
  (sum_list ((λ t, if Calendar.is_type t v then 1 else 0) <$> ts) ≤ 1)%nat.
Proof.
  set (f := λ t : string, if Calendar.is_type t v then 1%nat else 0%nat).
  induction 1 as [|t ts Hnot Hnd IH]; [simpl; lia|].
  change (f t + sum_list (f <$> ts) ≤ 1)%nat.
  destruct (Calendar.is_type t v) eqn:Ht; [|unfold f at 1; rewrite Ht; lia].
  assert (sum_list (f <$> ts) = 0%nat) as ->; [|unfold f; rewrite Ht; lia].
  clear IH Hnd. induction ts as [|t' ts IH]; [reflexivity|].
  apply not_elem_of_cons in Hnot as [Hne Hnot].
  change (f t' + sum_list (f <$> ts) = 0)%nat. rewrite IH by done.
  unfold f, Calendar.is_type in *.
  destruct v as [[[| | |x| |]| | |]|]; try discriminate.
  apply String.eqb_eq in Ht as ->.
  assert (String.eqb t t' = false) as -> by (by apply String.eqb_neq). reflexivity.
Qed.

Lemma sum_list_fmap_plus (f g h : string → nat) (ts : list string) :
  (∀ t, f t = (g t + h t)%nat) →
  sum_list (f <$> ts) = (sum_list (g <$> ts) + sum_list (h <$> ts))%nat.
Proof.
  intros Hf. induction ts as [|t ts IH]; [reflexivity|].
  rewrite !fmap_cons.
  change (f t + sum_list (f <$> ts)
          = (g t + sum_list (g <$> ts)) + (h t + sum_list (h <$> ts)))%nat.
  rewrite IH, Hf. lia.
Qed.

Lemma sum_list_fmap_zero (ts : list string) :
  sum_list ((λ _ : string, 0%nat) <$> ts) = 0%nat.
Proof. induction ts as [|t ts IH]; [reflexivity|]. rewrite fmap_cons. exact IH. Qed.

(** X20.  The counters of the statistics never add up to more than the
    number of events: over any list of distinct types, each event is counted
    at most once (and an event of another type is counted nowhere). *)
Theorem X20_counts_are_bounded (s : Calendar.state) (ts : list string) :
  NoDup ts →
  (sum_list (Calendar.getEventCount s <$> ts) ≤ length (Calendar.events s))%nat.
Proof.
  intros Hnd.
  assert (∀ es : list object,
            sum_list ((λ t, length (List.filter
               (λ event : object, Calendar.is_type t (event !! "eventType")) es)) <$> ts)
            ≤ length es)%nat as Hall; [|apply Hall].
  induction es as [|e es IH].
  - change (sum_list ((λ _ : string, 0%nat) <$> ts) ≤ 0)%nat.
    by rewrite sum_list_fmap_zero.
  - rewrite (sum_list_fmap_plus _
               (λ t, if Calendar.is_type t (e !! "eventType") then 1%nat else 0%nat)
               (λ t, length (List.filter
                  (λ event : object, Calendar.is_type t (event !! "eventType")) es))).
    + pose proof (is_type_once ts (e !! "eventType") Hnd) as Honce.
      change (length (e :: es)) with (S (length es)). lia.
    + intros t. simpl. by destruct (Calendar.is_type t (e !! "eventType")).
Qed.

End filters.

(** * Examples of the further properties *)

(** The event type [party], which the table does not have. *)
Lemma X3_color_of_other_names_witness :
  ∃ c, enhancedEventData lecture_data "party" !! "color" = Some (VJson (JString c))
       ∧ (EVENT_TYPE_COLORS !! "party" = Some c
          ∨ EVENT_TYPE_COLORS !! "party" = None ∧ EVENT_TYPE_COLORS !! "other" = Some c).
Proof. apply (X3_color_of_other_names lecture_data "party"). reflexivity. Defined.

Lemma untyped_proposed :
  @proposes reference_platform (answering (tool_call_with (Some lecture_proposal)) Delivered)
    untyped_request lecture_data.
Proof. do 3 eexists. repeat split; vm_compute; reflexivity. Defined.

(** The lecture, requested without an event type. *)
Lemma X4_default_event_type_witness :
  ∃ event w',
    @OpenAI.POST reference_platform
      (answering (tool_call_with (Some lecture_proposal)) Delivered) untyped_request empty_world
    = (inl (Response 200 event), w')
    ∧ event !! "eventType" = Some (VJson (JString "other"))
    ∧ event !! "resource" = Some (VJson (JString "other"))
    ∧ event !! "color" = Some (VJson (JString "#6B7280"))
    ∧ ∃ before after,
        last (upstream_log w')
        = Some (before ++ "Event context: This is a other event." ++ after).
Proof.
  apply (X4_default_event_type (H := reference_platform) _ _ empty_world lecture_data);
    [reflexivity | apply untyped_proposed | discriminate].
Defined.


(** The lecture submitted, then the body [true] posted to the store. *)
Lemma X6_stored_events_are_dated_witness :
  Forall dated
    (EVENTS (@run reference_platform empty_world
               [Submit (answering (tool_call_with (Some lecture_proposal)) Delivered)
                       lecture_request;
                Create (JBool true)])).
Proof. apply (X6_stored_events_are_dated (H := reference_platform)). apply Forall_nil_2. Defined.

Lemma X8_form_after_submission_witness :
  ∃ f' w',
    @handleSubmit reference_platform
      (answering (tool_call_with (Some lecture_proposal)) Delivered) lecture_form empty_world
    = (f', w')
    ∧ upstream_log w'
      = [sent (answering (tool_call_with (Some lecture_proposal)) Delivered)
              (request_of lecture_form)]
    ∧ loading f' = false
    ∧ selectedType f' = lecture
    ∧ (showSuccess f' = true ∧ input f' = ""
       ∨ showSuccess f' = false ∧ input f' = "Math lecture tomorrow at 9am").
Proof.
  apply (X8_form_after_submission (H := reference_platform) _ lecture_form empty_world).
  discriminate.
Defined.

(** The form with the lecture, and a completion without tool call. *)
Lemma X9_success_shown_for_400_witness :
  fst (@OpenAI.POST reference_platform (answering no_tool_call Delivered)
         (request_of lecture_form) empty_world)
  = inl (Response 400 {[ "error" := VJson (JString "No function call") ]})
  ∧ ∃ f' w',
      @handleSubmit reference_platform (answering no_tool_call Delivered) lecture_form
        empty_world
      = (f', w')
      ∧ showSuccess f' = true ∧ input f' = ""
      ∧ EVENTS w' = [].
Proof.
  apply (X9_success_shown_for_400 (H := reference_platform)
           (answering no_tool_call Delivered) lecture_form empty_world no_tool_call
           {| message := {| tool_calls := None |} |});
    [discriminate | reflexivity | reflexivity | reflexivity].
Defined.



(** The earlier form with the lecture, and arguments that are not JSON. *)
Lemma X12_earlier_form_left_loading_witness :
  ∃ w',
    @AI_Input_first.handleSubmit reference_platform _
      (λ r, @OpenAI_first.POST reference_platform
              (answering (tool_call_with (Some "{title: Math lecture")) Delivered) (prompt r))
      earlier_form empty_world
    = (AI_Input_first.Form "Math lecture tomorrow at 9am" true, w')
    ∧ EVENTS w' = [].
Proof.
  apply (X12_earlier_form_left_loading (H := reference_platform)
           (answering (tool_call_with (Some "{title: Math lecture")) Delivered)
           earlier_form empty_world
           (tool_call_with (Some "{title: Math lecture"))
           {| message := {| tool_calls :=
                Some [ {| function := {| arguments := Some "{title: Math lecture" |} |} ] |} |}
           {| function := {| arguments := Some "{title: Math lecture" |} |}
           "{title: Math lecture");
    [discriminate | reflexivity | reflexivity | reflexivity | reflexivity
    | discriminate | reflexivity].
Defined.



Lemma X18_toggleFilter_twice_witness :
  Calendar.toggleFilter "exam" (Calendar.toggleFilter "exam" ["lecture"]) = ["lecture"].
Proof.
  apply (X18_toggleFilter_twice "exam" ["lecture"]).
  intros Hin. apply elem_of_cons in Hin as [[=]|Hin]. by apply elem_of_nil in Hin.
Defined.

Lemma seven_types_NoDup : NoDup seven_types.
Proof.
  unfold seven_types.
  repeat (apply NoDup_cons; split;
          [intros Hin; repeat (apply elem_of_cons in Hin as [[=]|Hin]);
           by apply elem_of_nil in Hin|]).
  apply NoDup_nil_2.
Defined.

(** The seven counters of a calendar with four events, one of them of no
    type. *)
Lemma X20_counts_are_bounded_witness :
  (sum_list (Calendar.getEventCount some_calendar <$> seven_types) ≤ 4)%nat.
Proof. apply (X20_counts_are_bounded some_calendar seven_types seven_types_NoDup). Defined.
